(** * ariadne-codegen: the client generator and the runtime base client

    A shallow embedding of
      - [ariadne_codegen/client_generators/dependencies/base_client.py]
        (module [BaseClient] below), and
      - [ariadne_codegen/client_generators/client.py]
        (module [ClientGenerator] below),
    followed by the properties proved about them.

    Conventions.
      - A Python [dict] is an insertion-ordered association list; writing a
        key goes through [dict_set], which overwrites in place or appends,
        as the interpreter does.
      - Objects compared by identity (file handles, HTTP clients) are
        natural-number handles; what the interpreter would read off the
        object (the [mode] attribute of a file) is looked up in a store.
      - Effects (opening and closing a transport, sending a request, reading
        a response body) are events appended to a log carried by the world;
        raising is the [Raise] result. *)

From Stdlib Require Import List String Ascii ZArith Bool Arith Lia.
From Stdlib Require Import DecimalString DecimalNat.
Import ListNotations.

Local Open Scope string_scope.
Local Open Scope list_scope.

Set Warnings "-register-all".

(** ** Python values and dictionaries *)

Definition Handle := nat.

(** The values that can flow through the variables mapping and through a
    decoded response body. *)
Inductive Value : Type :=
| VNone
| VUnset                                   (* the UNSET sentinel *)
| VBool (b : bool)
| VInt (z : Z)
| VStr (s : string)
| VList (items : list Value)
| VDict (entries : list (string * Value))
| VModel (dump : list (string * Value))
    (* a pydantic BaseModel instance, carried by what
       [.dict(by_alias=True, exclude_unset=True)] returns for it *)
| VFile (h : Handle)                       (* an io.IOBase instance *)
| VOther (tag : nat) (truth : bool).
    (* any other object (float, tuple, ...), with its truth value *)

Definition Dict := list (string * Value).

Fixpoint dict_get (key : string) (d : Dict) : option Value :=
  match d with
  | [] => None
  | (k, v) :: rest => if String.eqb key k then Some v else dict_get key rest
  end.

(** [d[key] = value]: overwrite where the key already is, else append. *)
Fixpoint dict_set (key : string) (value : Value) (d : Dict) : Dict :=
  match d with
  | [] => [(key, value)]
  | (k, v) :: rest =>
      if String.eqb key k then (k, value) :: rest
      else (k, v) :: dict_set key value rest
  end.

Definition dict_keys (d : Dict) : list string := map fst d.

(** Python truthiness, as used by [if x:] and [not x]. *)
Definition truthy (v : Value) : bool :=
  match v with
  | VNone => false
  | VUnset => false
  | VBool b => b
  | VInt z => negb (Z.eqb z 0)
  | VStr s => negb (String.eqb s "")
  | VList items => match items with [] => false | _ => true end
  | VDict entries => match entries with [] => false | _ => true end
  | VModel _ => true
  | VFile _ => true
  | VOther _ truth => truth
  end.

Definition is_unset (v : Value) : bool :=
  match v with VUnset => true | _ => false end.

(** [str(n)] for a non-negative index. *)
Definition str_of_nat (n : nat) : string :=
  NilEmpty.string_of_uint (Nat.to_uint n).

(** ** The world: transports, requests, responses, exceptions *)

Record Response : Type := mkResponse {
  status_code : Z;
  json_body : option Value   (* what [response.json()] decodes; [None] when
                                it raises ValueError *)
}.

(** httpx: a response is a success when its status is 2xx. *)
Definition is_success (r : Response) : bool :=
  (200 <=? status_code r)%Z && (status_code r <=? 299)%Z.

Inductive Request : Type :=
| PostJson (url : string) (content : string) (headers : list (string * string))
| PostMultipart (url : string) (data : list (string * string))
                (files : list (string * Handle)).

(** Modelled from the spec: the error taxonomy of exceptions.py, which is not
    among the sources.  A GraphQLError has a message, an optional path and
    optional locations; every entry of the server's [errors] array becomes
    one, its fields read from the entry by key. *)
Record GraphQLError : Type := mkGraphQLError {
  message : option Value;
  path : option Value;
  locations : option Value
}.

Inductive Exn : Type :=
| GraphQLClientHttpError (status : Z) (response : Response)
| GraphQlClientInvalidResponseError (response : Response)
| GraphQLClientGraphQLMultiError (errors : list GraphQLError) (data : Value)
| OtherError (what : string).

Inductive result (A : Type) : Type :=
| Ok (a : A)
| Raise (e : Exn).
Arguments Ok {A} a.
Arguments Raise {A} e.

Inductive Event : Type :=
| Opened (h : Handle) (headers : option (list (string * string)))
| Closed (h : Handle)
| Sent (h : Handle) (req : Request)
| JsonDecoded (r : Response).

Record World : Type := mkWorld {
  next_handle : Handle;
  events : list Event
}.

Definition log (e : Event) (w : World) : World :=
  mkWorld (next_handle w) (events w ++ [e]).

(** Computations that read and extend the world and may raise. *)
Definition M (A : Type) : Type := World -> result A * World.

Definition ret {A} (a : A) : M A := fun w => (Ok a, w).
Definition raise {A} (e : Exn) : M A := fun w => (Raise e, w).
Definition bind {A B} (c : M A) (k : A -> M B) : M B :=
  fun w =>
    match c w with
    | (Ok a, w') => k a w'
    | (Raise e, w') => (Raise e, w')
    end.
Definition lift {A} (r : result A) : M A := fun w => (r, w).

Notation "x <- c ;; k" := (bind c (fun x => k))
  (at level 61, c at next level, right associativity).
Notation "c ;;; k" := (bind c (fun _ => k))
  (at level 61, right associativity).

Fixpoint closed_in (h : Handle) (evs : list Event) : bool :=
  match evs with
  | [] => false
  | Closed h' :: rest => Nat.eqb h h' || closed_in h rest
  | _ :: rest => closed_in h rest
  end.

Definition is_closed (h : Handle) (w : World) : bool := closed_in h (events w).

(** What the interpreter and the libraries around the base client supply:
    the [mode] attribute of a file object ([None] when the object has none;
    the attribute is a string, as the io classes have it),
    [json.dumps(_, default=pydantic_encoder)] (which raises on a value it
    cannot encode), and the transport behind [http_client.post] (which may
    raise, and answers as the server and the network decide). *)
Record Env : Type := mkEnv {
  file_mode : Handle -> option string;
  json_dumps : Value -> result string;
  transport : World -> Handle -> Request -> result Response
}.

(** ** base_client.py *)

Module BaseClient.

Record t : Type := mk {
  url : string;
  headers : option (list (string * string));
  http_client : Handle
}.

(** [httpx.Client(headers=headers)]: a fresh transport. *)
Definition new_client (headers : option (list (string * string))) : M Handle :=
  fun w => (Ok (next_handle w),
            mkWorld (S (next_handle w))
                    (events w ++ [Opened (next_handle w) headers])).

(** [client.close()]. *)
Definition close (h : Handle) : M unit :=
  fun w => (Ok tt, log (Closed h) w).

(** [client.post(...)]: the request goes out, the transport answers. *)
Definition post (env : Env) (h : Handle) (req : Request) : M Response :=
  fun w => (transport env w h req, log (Sent h req) w).

(** [response.json()], with the [except ValueError] clause around it. *)
Definition response_json (response : Response) : M Value :=
  fun w =>
    (match json_body response with
     | Some v => Ok v
     | None => Raise (GraphQlClientInvalidResponseError response)
     end,
     log (JsonDecoded response) w).

(** An [httpx.Client] is always truthy, so [http_client if http_client else
    ...] keeps any client it is given. *)
Definition __init__ (url : string) (headers : option (list (string * string)))
    (http_client : option Handle) : M t :=
  match http_client with
  | Some h => ret (mk url headers h)
  | None => h <- new_client headers ;; ret (mk url headers h)
  end.

Definition __enter__ (self : t) : M t := ret self.

Definition __exit__ (self : t) (exc_type exc_val exc_tb : option Exn) : M unit :=
  close (http_client self).

(** The [with BaseClient(...) as c: body] statement: [__exit__] runs when the
    body returns and when it raises; [__exit__] returns None, so an exception
    of the body propagates. *)
Definition with_ {A} (self : t) (body : t -> M A) : M A :=
  fun w =>
    match __enter__ self w with
    | (Raise e, w0) => (Raise e, w0)
    | (Ok c, w0) =>
        match body c w0 with
        | (Ok a, w1) =>
            match __exit__ self None None None w1 with
            | (Ok _, w2) => (Ok a, w2)
            | (Raise e, w2) => (Raise e, w2)
            end
        | (Raise e, w1) =>
            match __exit__ self (Some e) (Some e) (Some e) w1 with
            | (Ok _, w2) => (Raise e, w2)
            | (Raise e', w2) => (Raise e', w2)
            end
        end
    end.

Fixpoint _convert_value (value : Value) : Value :=
  match value with
  | VModel dump => VDict dump
  | VList items => VList (map _convert_value items)
  | _ => value
  end.

Definition _convert_dict_to_json_serializable (dict_ : Dict) : Dict :=
  fold_left
    (fun acc kv =>
       if is_unset (snd kv) then acc
       else dict_set (fst kv) (_convert_value (snd kv)) acc)
    dict_ [].

(** [files_to_paths_map]: keyed by the file object, in insertion order. *)
Definition FilesMap := list (Handle * list string).

(** ["b" in s]. *)
Fixpoint contains_b (s : string) : bool :=
  match s with
  | EmptyString => false
  | String c rest => Ascii.eqb c "b"%char || contains_b rest
  end.

(** ["b" in getattr(obj, "mode", "b")]. *)
Definition is_binary (env : Env) (h : Handle) : bool :=
  match file_mode env h with
  | Some mode => contains_b mode
  | None => contains_b "b"
  end.

(** The [if checked_obj in files_to_paths_map: ... else: ...] update. *)
Fixpoint record_file (h : Handle) (path : string) (m : FilesMap) : FilesMap :=
  match m with
  | [] => [(h, [path])]
  | (h', paths) :: rest =>
      if Nat.eqb h h' then (h', paths ++ [path]) :: rest
      else (h', paths) :: record_file h path rest
  end.

(** The closure [separate_files]; the map it updates is threaded through. *)
Fixpoint separate_files (env : Env) (path : string) (obj : Value)
    (m : FilesMap) {struct obj} : Value * FilesMap :=
  match obj with
  | VList items =>
      let fix each (index : nat) (items : list Value)
                   (nulled_list : list Value) (m : FilesMap)
                   {struct items} : list Value * FilesMap :=
        match items with
        | [] => (nulled_list, m)
        | value :: rest =>
            let '(value', m') :=
              separate_files env (path ++ "." ++ str_of_nat index) value m in
            each (S index) rest (nulled_list ++ [value']) m'
        end in
      let '(nulled_list, m') := each 0 items [] m in
      (VList nulled_list, m')
  | VDict entries =>
      let fix each (entries : Dict) (nulled_dict : Dict) (m : FilesMap)
                   {struct entries} : Dict * FilesMap :=
        match entries with
        | [] => (nulled_dict, m)
        | (key, value) :: rest =>
            let '(value', m') :=
              separate_files env (path ++ "." ++ key) value m in
            each rest (dict_set key value' nulled_dict) m'
        end in
      let '(nulled_dict, m') := each entries [] m in
      (VDict nulled_dict, m')
  | VFile h =>
      if is_binary env h then (VNone, record_file h path m) else (obj, m)
  | _ => (obj, m)
  end.

Definition _get_files_from_variables (env : Env) (variables : Dict)
    : Value * FilesMap :=
  separate_files env "variables" (VDict variables) [].

Definition _process_variables (env : Env) (variables : option Dict)
    : Value * FilesMap :=
  match variables with
  | None => (VDict [], [])
  | Some [] => (VDict [], [])
  | Some variables =>
      let serializable_variables :=
        _convert_dict_to_json_serializable variables in
      _get_files_from_variables env serializable_variables
  end.

(** [enumerate] with the index turned into its decimal string. *)
Fixpoint enumerate_str {A B} (f : A -> B) (i : nat) (l : list A)
    : list (string * B) :=
  match l with
  | [] => []
  | a :: rest => (str_of_nat i, f a) :: enumerate_str f (S i) rest
  end.

(** [{str(i): files_to_paths_map[file_] for i, file_ in enumerate(keys)}]. *)
Definition files_map_of (files_to_paths_map : FilesMap)
    : list (string * list string) :=
  enumerate_str snd 0 files_to_paths_map.

(** [{str(i): file_ for i, file_ in enumerate(keys)}]. *)
Definition files_of (files_to_paths_map : FilesMap) : list (string * Handle) :=
  enumerate_str fst 0 files_to_paths_map.

Definition files_map_value (files_map : list (string * list string)) : Value :=
  VDict (map (fun kv => (fst kv, VList (map VStr (snd kv)))) files_map).

Definition _execute_multipart (env : Env) (self : t) (payload : Value)
    (files_to_paths_map : FilesMap) : M Response :=
  let files_map := files_map_of files_to_paths_map in
  let files := files_of files_to_paths_map in
  operations <- lift (json_dumps env payload) ;;
  map_ <- lift (json_dumps env (files_map_value files_map)) ;;
  let data := [("operations", operations); ("map", map_)] in
  post env (http_client self) (PostMultipart (url self) data files).

Definition _execute_json (env : Env) (self : t) (payload : Value)
    : M Response :=
  content <- lift (json_dumps env payload) ;;
  post env (http_client self)
       (PostJson (url self) content [("Content-Type", "application/json")]).

Definition execute (env : Env) (self : t) (query : string)
    (variables : option Dict) : M Response :=
  let '(processed_variables, files_to_paths_map) :=
    _process_variables env variables in
  let payload :=
    VDict [("query", VStr query); ("variables", processed_variables)] in
  match files_to_paths_map with
  | _ :: _ => _execute_multipart env self payload files_to_paths_map
  | [] => _execute_json env self payload
  end.

(** Modelled from the spec: [GraphQLClientGraphQLError.from_dict] of
    exceptions.py, which is not among the sources: an entry of the [errors]
    array becomes a GraphQLError carrying the entry's message, path and
    locations. *)
Definition from_dict (error : Value) : GraphQLError :=
  match error with
  | VDict d =>
      mkGraphQLError (dict_get "message" d) (dict_get "path" d)
                     (dict_get "locations" d)
  | _ => mkGraphQLError None None None
  end.

(** Modelled from the spec: [GraphQLClientGraphQLMultiError.from_errors_dicts]
    of exceptions.py, which is not among the sources: the aggregate error is
    constructed from the [errors] array, each entry becoming a GraphQLError,
    and carries [data].  The spec describes an array only; any other truthy
    [errors] value is left as an unspecified failure. *)
Definition from_errors_dicts (errors_dicts : Value) (data : Value) : Exn :=
  match errors_dicts with
  | VList entries => GraphQLClientGraphQLMultiError (map from_dict entries) data
  | _ => OtherError "errors is not an array"
  end.

Definition get_data (self : t) (response : Response) : M Value :=
  if negb (is_success response) then
    raise (GraphQLClientHttpError (status_code response) response)
  else
    response_json <- response_json response ;;
    match response_json with
    | VDict d =>
        match dict_get "data" d with
        | None => raise (GraphQlClientInvalidResponseError response)
        | Some data =>
            let errors :=
              match dict_get "errors" d with Some e => e | None => VNone end in
            if truthy errors then raise (from_errors_dicts errors data)
            else ret data
        end
    | _ => raise (GraphQlClientInvalidResponseError response)
    end.

End BaseClient.

(** ** The syntax trees the generator builds (Python's [ast] nodes) *)

Module ast.

Inductive expr : Type :=
| Name (id : string)
| Constant (value : string)
| Attribute (value : expr) (attr : string)
| Call (func : expr) (args : list expr) (keywords : list (string * expr))
| Await (value : expr)
| Subscript (value : expr) (slice : expr)
| Tuple (elts : list expr)
| Dict (keys : list expr) (values : list expr)
| Nodes (elts : list expr).
    (* a bare Python list of nodes standing where one node is expected *)

Record arg : Type := mk_arg {
  arg_name : string;
  annotation : option expr
}.

Record arguments : Type := mk_arguments {
  args : list arg;
  defaults : list expr
}.

Record ImportFrom : Type := mk_ImportFrom {
  module_ : option string;
  names : list string;
  level : nat
}.

(** [FunctionDef] stands for both [ast.FunctionDef] and
    [ast.AsyncFunctionDef]; [is_async] tells which. *)
Inductive stmt : Type :=
| Import (i : ImportFrom)
| Assign (targets : list expr) (value : expr) (lineno : nat)
| AnnAssign (target : expr) (annotation : expr) (value : option expr)
            (lineno : nat)
| Return (value : expr)
| Pass
| Def (f : FunctionDef)
| Class (c : ClassDef)
with FunctionDef : Type :=
| mk_FunctionDef (is_async : bool) (name : string) (args : arguments)
                 (body : list stmt) (returns : expr) (lineno : nat)
with ClassDef : Type :=
| mk_ClassDef (name : string) (bases : list expr) (body : list stmt)
              (lineno : option nat).

Definition fd_is_async (f : FunctionDef) : bool :=
  match f with mk_FunctionDef a _ _ _ _ _ => a end.
Definition fd_name (f : FunctionDef) : string :=
  match f with mk_FunctionDef _ n _ _ _ _ => n end.
Definition fd_args (f : FunctionDef) : arguments :=
  match f with mk_FunctionDef _ _ a _ _ _ => a end.
Definition fd_body (f : FunctionDef) : list stmt :=
  match f with mk_FunctionDef _ _ _ b _ _ => b end.
Definition fd_returns (f : FunctionDef) : expr :=
  match f with mk_FunctionDef _ _ _ _ r _ => r end.
Definition fd_lineno (f : FunctionDef) : nat :=
  match f with mk_FunctionDef _ _ _ _ _ l => l end.
(** [f.lineno = l]. *)
Definition fd_set_lineno (l : nat) (f : FunctionDef) : FunctionDef :=
  match f with mk_FunctionDef a n g b r _ => mk_FunctionDef a n g b r l end.

Definition cd_name (c : ClassDef) : string :=
  match c with mk_ClassDef n _ _ _ => n end.
Definition cd_bases (c : ClassDef) : list expr :=
  match c with mk_ClassDef _ b _ _ => b end.
Definition cd_body (c : ClassDef) : list stmt :=
  match c with mk_ClassDef _ _ b _ => b end.
Definition cd_lineno (c : ClassDef) : option nat :=
  match c with mk_ClassDef _ _ _ l => l end.
(** [c.lineno = l]. *)
Definition cd_set_lineno (l : nat) (c : ClassDef) : ClassDef :=
  match c with mk_ClassDef n b d _ => mk_ClassDef n b d (Some l) end.
(** [c.body.append(s)]. *)
Definition cd_append (s : stmt) (c : ClassDef) : ClassDef :=
  match c with mk_ClassDef n b d l => mk_ClassDef n b (d ++ [s]) l end.

Record Module_ : Type := mk_Module { body : list stmt }.

End ast.

(** Modelled from the spec: the tree-builder primitives of codegen.py, which
    is not among the sources: constructors for syntax-tree nodes (assignment,
    function and async-function definition, class definition, call, import,
    literal, attribute access, module), each building the node its name
    says. *)
Module codegen.
Import ast.

Definition generate_name (id : string) : expr := Name id.
Definition generate_constant (value : string) : expr := Constant value.
Definition generate_attribute (value : expr) (attr : string) : expr :=
  Attribute value attr.
Definition generate_keyword (arg : string) (value : expr) : string * expr :=
  (arg, value).
Definition generate_call (func : expr) (args : list expr)
    (keywords : list (string * expr)) : expr := Call func args keywords.
Definition generate_await (value : expr) : expr := Await value.
Definition generate_subscript (value slice : expr) : expr :=
  Subscript value slice.
Definition generate_tuple (elts : list expr) : expr := Tuple elts.
Definition generate_arg (name : string) (annotation : option expr) : arg :=
  mk_arg name annotation.
Definition generate_arguments (args : list arg) (defaults : list expr)
    : arguments := mk_arguments args defaults.
Definition generate_assign (targets : list string) (value : expr)
    (lineno : nat) : stmt := Assign (map Name targets) value lineno.
Definition generate_ann_assign (target : string) (annotation : expr)
    (value : expr) (lineno : nat) : stmt :=
  AnnAssign (Name target) annotation (Some value) lineno.
Definition generate_return (value : expr) : stmt := Return value.
Definition body_or_pass (body : list stmt) : list stmt :=
  match body with [] => [Pass] | _ => body end.
Definition generate_method_definition (name : string) (arguments : arguments)
    (return_type : expr) (body : list stmt) : FunctionDef :=
  mk_FunctionDef false name arguments (body_or_pass body) return_type 1.
Definition generate_async_method_definition (name : string)
    (arguments : arguments) (return_type : expr) (body : list stmt)
    : FunctionDef :=
  mk_FunctionDef true name arguments (body_or_pass body) return_type 1.
Definition generate_class_def (name : string) (base_names : list string)
    : ClassDef := mk_ClassDef name (map Name base_names) [] None.
Definition generate_import_from (names : list string) (from_ : option string)
    (level : nat) : ImportFrom := mk_ImportFrom from_ names level.
Definition generate_module (body : list stmt) : Module_ := mk_Module body.

End codegen.

(** Modelled from the spec: the names of constants.py, which is not among the
    sources: the typing-style helper imports. *)
Definition OPTIONAL := "Optional".
Definition LIST := "List".
Definition ANY := "Any".
Definition UNION := "Union".
Definition TYPING_MODULE := "typing".

(** ** The collaborators of the client generator *)

Inductive GraphQLType : Type :=
| NamedType (name : string)
| ListType (of_type : GraphQLType)
| NonNullType (of_type : GraphQLType).

Record VariableDefinition : Type := mkVariableDefinition {
  variable_name : string;
  graphql_type : GraphQLType;
  has_default : bool
}.

Record OperationDefinitionNode : Type := mkOperation {
  variable_definitions : list VariableDefinition
}.

(** The arguments generator handed to the client generator: an object with
    state [S], asked for the parameters and the variables mapping of each
    operation and, at the end, for what it saw being used. *)
Module ArgumentsGenerator.

Class Ops (S : Type) : Type := {
  generate : S -> list VariableDefinition -> (ast.arguments * ast.expr) * S;
  get_used_inputs : S -> list string;
  get_used_enums : S -> list string;
  get_used_custom_scalars : S -> list string
}.

End ArgumentsGenerator.

(** scalars.py is not among the sources; the generator only passes the
    metadata of a custom scalar to [generate_scalar_imports]. *)
Class Scalars : Type := {
  ScalarData : Type;
  generate_scalar_imports : ScalarData -> list ast.ImportFrom
}.

(** The plugin manager: one transformation per hook point. *)
Record PluginManager : Type := mkPluginManager {
  generate_gql_function : ast.FunctionDef -> ast.FunctionDef;
  generate_client_class : ast.ClassDef -> ast.ClassDef;
  generate_client_method : ast.FunctionDef -> ast.FunctionDef;
  generate_client_module : ast.Module_ -> ast.Module_;
  generate_client_import : ast.ImportFrom -> ast.ImportFrom
}.

(** ** [str.splitlines()] *)

Definition code_is (n : nat) (c : ascii) : bool := Nat.eqb (nat_of_ascii c) n.

(** The one-byte line boundaries: LF, VT, FF, FS, GS, RS (CR is handled with
    the CR LF pair). *)
Definition is_line_boundary (c : ascii) : bool :=
  code_is 10 c || code_is 11 c || code_is 12 c
  || code_is 28 c || code_is 29 c || code_is 30 c.

(** [line] is the current line so far.  A string is its UTF-8 bytes, so the
    boundaries U+0085, U+2028 and U+2029 are the byte sequences C2 85,
    E2 80 A8 and E2 80 A9. *)
Fixpoint splitlines_from (line : string) (s : string) : list string :=
  match s with
  | EmptyString => match line with EmptyString => [] | _ => [line] end
  | String c rest =>
      if code_is 13 c then
        match rest with
        | String c2 rest2 =>
            if code_is 10 c2 then line :: splitlines_from "" rest2
            else line :: splitlines_from "" rest
        | EmptyString => line :: splitlines_from "" rest
        end
      else if is_line_boundary c then line :: splitlines_from "" rest
      else
        match rest with
        | String c2 rest2 =>
            if code_is 194 c && code_is 133 c2 then
              line :: splitlines_from "" rest2
            else
              match rest2 with
              | String c3 rest3 =>
                  if code_is 226 c && code_is 128 c2
                     && (code_is 168 c3 || code_is 169 c3)
                  then line :: splitlines_from "" rest3
                  else splitlines_from (line ++ String c "") rest
              | EmptyString => splitlines_from (line ++ String c "") rest
              end
        | EmptyString => splitlines_from (line ++ String c "") rest
        end
  end.

Definition splitlines (s : string) : list string := splitlines_from "" s.

(** ** client.py *)

Inductive GenError : Type :=
| KeyError (key : string).

Module ClientGenerator.
Import ast codegen.

Section WithCollaborators.

Context {S : Type} {AG : ArgumentsGenerator.Ops S} {SC : Scalars}.

Record t : Type := mk {
  name : string;
  enums_module_name : string;
  input_types_module_name : string;
  plugin_manager : option PluginManager;
  custom_scalars : list (string * ScalarData);
  arguments_generator : S;
  _imports : list ImportFrom;
  _class_def : ClassDef;
  _gql_func_name : string;
  _operation_str_variable : string;
  _variables_dict_variable : string;
  _response_variable : string;
  _data_variable : string
}.

Definition set_imports (v : list ImportFrom) (self : t) : t :=
  mk (name self) (enums_module_name self) (input_types_module_name self)
     (plugin_manager self) (custom_scalars self) (arguments_generator self)
     v (_class_def self) (_gql_func_name self)
     (_operation_str_variable self) (_variables_dict_variable self)
     (_response_variable self) (_data_variable self).

Definition set_class_def (v : ClassDef) (self : t) : t :=
  mk (name self) (enums_module_name self) (input_types_module_name self)
     (plugin_manager self) (custom_scalars self) (arguments_generator self)
     (_imports self) v (_gql_func_name self)
     (_operation_str_variable self) (_variables_dict_variable self)
     (_response_variable self) (_data_variable self).

Definition set_arguments_generator (v : S) (self : t) : t :=
  mk (name self) (enums_module_name self) (input_types_module_name self)
     (plugin_manager self) (custom_scalars self) v
     (_imports self) (_class_def self) (_gql_func_name self)
     (_operation_str_variable self) (_variables_dict_variable self)
     (_response_variable self) (_data_variable self).

(** [import_.names and import_.module]. *)
Definition import_is_kept (import_ : ImportFrom) : bool :=
  match names import_ with
  | [] => false
  | _ :: _ =>
      match module_ import_ with
      | None => false
      | Some m => negb (String.eqb m "")
      end
  end.

Definition _add_import (import_ : option ImportFrom) (self : t) : t :=
  match import_ with
  | None => self
  | Some import_ =>
      let import_ :=
        match plugin_manager self with
        | Some pm => generate_client_import pm import_
        | None => import_
        end in
      if import_is_kept import_ then
        set_imports (_imports self ++ [import_]) self
      else self
  end.

(** The attributes [_add_import] does not read ([_class_def] and the variable
    names) are set here from the start. *)
Definition __init__ (name base_client enums_module_name
                     input_types_module_name : string)
    (arguments_generator : S)
    (base_client_import unset_import : option ImportFrom)
    (custom_scalars : option (list (string * ScalarData)))
    (plugin_manager : option PluginManager) : t :=
  let self :=
    mk name enums_module_name input_types_module_name plugin_manager
       (match custom_scalars with Some d => d | None => [] end)
       arguments_generator []
       (generate_class_def name [base_client])
       "gql" "query" "variables" "response" "data" in
  let self :=
    _add_import
      (Some (generate_import_from [OPTIONAL; LIST; ANY; UNION]
                                  (Some TYPING_MODULE) 0)) self in
  let self := _add_import base_client_import self in
  _add_import unset_import self.

Definition _generate_operation_str_assign (self : t) (operation_str : string)
    (lineno : nat) : stmt :=
  generate_assign
    [_operation_str_variable self]
    (generate_call
       (generate_name (_gql_func_name self))
       [Nodes (map (fun l => generate_constant (l ++ String "010"%char ""))
                   (splitlines operation_str))]
       [])
    lineno.

Definition _generate_variables_assign (self : t) (arguments_dict : expr)
    (lineno : nat) : stmt :=
  generate_ann_assign
    (_variables_dict_variable self)
    (generate_subscript
       (generate_name "dict")
       (generate_tuple [generate_name "str"; generate_name "object"]))
    arguments_dict
    lineno.

Definition _generate_execute_call (self : t) : expr :=
  generate_call
    (generate_attribute (generate_name "self") "execute")
    []
    [generate_keyword "query" (generate_name (_operation_str_variable self));
     generate_keyword "variables"
                      (generate_name (_variables_dict_variable self))].

Definition _generate_async_response_assign (self : t) (lineno : nat) : stmt :=
  generate_assign [_response_variable self]
                  (generate_await (_generate_execute_call self)) lineno.

Definition _generate_response_assign (self : t) (lineno : nat) : stmt :=
  generate_assign [_response_variable self] (_generate_execute_call self)
                  lineno.

Definition _generate_data_retrieval (self : t) : stmt :=
  generate_assign
    [_data_variable self]
    (generate_call
       (generate_attribute (generate_name "self") "get_data")
       [generate_name (_response_variable self)]
       [])
    1.

Definition _generate_return_parsed_obj (self : t) (return_type : string)
    : stmt :=
  generate_return
    (generate_call
       (generate_attribute (generate_name return_type) "parse_obj")
       [generate_name (_data_variable self)]
       []).

Definition _generate_async_method (self : t) (name return_type : string)
    (arguments : arguments) (arguments_dict : expr) (operation_str : string)
    : FunctionDef :=
  generate_async_method_definition
    name arguments (generate_name return_type)
    [_generate_operation_str_assign self operation_str 1;
     _generate_variables_assign self arguments_dict 2;
     _generate_async_response_assign self 3;
     _generate_data_retrieval self;
     _generate_return_parsed_obj self return_type].

Definition _generate_method (self : t) (name return_type : string)
    (arguments : arguments) (arguments_dict : expr) (operation_str : string)
    : FunctionDef :=
  generate_method_definition
    name arguments (generate_name return_type)
    [_generate_operation_str_assign self operation_str 1;
     _generate_variables_assign self arguments_dict 2;
     _generate_response_assign self 3;
     _generate_data_retrieval self;
     _generate_return_parsed_obj self return_type].

Definition _generate_gql_func (self : t) : FunctionDef :=
  let str_name := generate_name "str" in
  let arg := "q" in
  generate_method_definition
    (_gql_func_name self)
    (generate_arguments [generate_arg arg (Some str_name)] [])
    str_name
    [generate_return (generate_name arg)].

Definition add_method (self : t) (definition : OperationDefinitionNode)
    (name return_type return_type_module operation_str : string)
    (async_ : bool) : t :=
  let '((arguments, arguments_dict), ag) :=
    ArgumentsGenerator.generate (arguments_generator self)
                                (variable_definitions definition) in
  let self := set_arguments_generator ag self in
  let method_def :=
    if async_ then
      _generate_async_method self name return_type arguments arguments_dict
                             operation_str
    else
      _generate_method self name return_type arguments arguments_dict
                       operation_str in
  let method_def :=
    fd_set_lineno (List.length (cd_body (_class_def self)) + 1) method_def in
  let method_def :=
    match plugin_manager self with
    | Some pm => generate_client_method pm method_def
    | None => method_def
    end in
  let self := set_class_def (cd_append (Def method_def) (_class_def self)) self in
  _add_import
    (Some (generate_import_from [return_type] (Some return_type_module) 1))
    self.

(** The loop over the used custom scalars: [self.custom_scalars[name]] raises
    KeyError for a name the mapping does not have. *)
Fixpoint lookup_scalar (key : string) (d : list (string * ScalarData))
    : option ScalarData :=
  match d with
  | [] => None
  | (k, v) :: rest => if String.eqb key k then Some v else lookup_scalar key rest
  end.

Fixpoint add_scalar_imports (custom_scalar_names : list string) (self : t)
    : t * option GenError :=
  match custom_scalar_names with
  | [] => (self, None)
  | custom_scalar_name :: rest =>
      match lookup_scalar custom_scalar_name (custom_scalars self) with
      | None => (self, Some (KeyError custom_scalar_name))
      | Some scalar_data =>
          add_scalar_imports rest
            (fold_left (fun self import_ => _add_import (Some import_) self)
                       (generate_scalar_imports scalar_data) self)
      end
  end.

(** [generate]: the generator after the call, and the module or the error. *)
Definition generate (self : t) : t * (GenError + Module_) :=
  let self :=
    _add_import
      (Some (generate_import_from
               (ArgumentsGenerator.get_used_inputs (arguments_generator self))
               (Some (input_types_module_name self)) 1)) self in
  let self :=
    _add_import
      (Some (generate_import_from
               (ArgumentsGenerator.get_used_enums (arguments_generator self))
               (Some (enums_module_name self)) 1)) self in
  match add_scalar_imports
          (ArgumentsGenerator.get_used_custom_scalars (arguments_generator self))
          self with
  | (self, Some err) => (self, inl err)
  | (self, None) =>
      let gql_func := _generate_gql_func self in
      let gql_func := fd_set_lineno (List.length (_imports self) + 1) gql_func in
      let gql_func :=
        match plugin_manager self with
        | Some pm => generate_gql_function pm gql_func
        | None => gql_func
        end in
      let self :=
        set_class_def
          (cd_set_lineno (List.length (_imports self) + 3) (_class_def self)) self in
      let self :=
        match cd_body (_class_def self) with
        | [] => set_class_def (cd_append Pass (_class_def self)) self
        | _ :: _ => self
        end in
      let self :=
        match plugin_manager self with
        | Some pm =>
            set_class_def (generate_client_class pm (_class_def self)) self
        | None => self
        end in
      let module :=
        generate_module
          (map Import (_imports self)
           ++ [Def gql_func; Class (_class_def self)]) in
      let module :=
        match plugin_manager self with
        | Some pm => generate_client_module pm module
        | None => module
        end in
      (self, inr module)
  end.

End WithCollaborators.

End ClientGenerator.

(** A generation run: the constructor, the [add_method] calls in the order
    they are made, then [generate]. *)
Record MethodCall : Type := mkMethodCall {
  call_definition : OperationDefinitionNode;
  call_name : string;
  call_return_type : string;
  call_return_type_module : string;
  call_operation_str : string;
  call_async : bool
}.

(** The method [add_method] hands to [generate_client_method], or appends as
    it is when no plugin manager is registered. *)
Definition through_method_hook (plugin_manager : option PluginManager)
    (method_def : ast.FunctionDef) : ast.FunctionDef :=
  match plugin_manager with
  | Some pm => generate_client_method pm method_def
  | None => method_def
  end.

Section Runs.

Context {S : Type} {AG : ArgumentsGenerator.Ops S} {SC : Scalars}.

Definition add_call (self : ClientGenerator.t) (c : MethodCall)
    : ClientGenerator.t :=
  ClientGenerator.add_method self (call_definition c) (call_name c)
    (call_return_type c) (call_return_type_module c) (call_operation_str c)
    (call_async c).

Definition add_methods (calls : list MethodCall) (self : ClientGenerator.t)
    : ClientGenerator.t :=
  fold_left add_call calls self.

(** The method definition [add_method] builds for a call, line number set,
    before any plugin hook sees it. *)
Definition method_for (self : ClientGenerator.t) (c : MethodCall)
    : ast.FunctionDef :=
  let '((arguments, arguments_dict), ag) :=
    ArgumentsGenerator.generate (ClientGenerator.arguments_generator self)
                                (variable_definitions (call_definition c)) in
  let self := ClientGenerator.set_arguments_generator ag self in
  ast.fd_set_lineno
    (List.length (ast.cd_body (ClientGenerator._class_def self)) + 1)
    (if call_async c then
       ClientGenerator._generate_async_method self (call_name c)
         (call_return_type c) arguments arguments_dict (call_operation_str c)
     else
       ClientGenerator._generate_method self (call_name c)
         (call_return_type c) arguments arguments_dict (call_operation_str c)).

(** What a run of [add_method] calls appends to the class body: for each
    call, in order, the method built for it in the state the generator is in
    when the call is made, passed through the method hook. *)
Fixpoint appended_methods (self : ClientGenerator.t) (calls : list MethodCall)
    : list ast.stmt :=
  match calls with
  | [] => []
  | c :: rest =>
      ast.Def (through_method_hook (ClientGenerator.plugin_manager self)
                                   (method_for self c))
      :: appended_methods (add_call self c) rest
  end.

(** The attributes of a generator that no method changes after the
    constructor: the plugin manager and the names used in generated code. *)
Definition settings (self : @ClientGenerator.t S SC)
    : option PluginManager * (string * string * string * string * string) :=
  (ClientGenerator.plugin_manager self,
   (ClientGenerator._gql_func_name self,
    ClientGenerator._operation_str_variable self,
    ClientGenerator._variables_dict_variable self,
    ClientGenerator._response_variable self,
    ClientGenerator._data_variable self)).

Record Config : Type := mkConfig {
  cfg_name : string;
  cfg_base_client : string;
  cfg_enums_module_name : string;
  cfg_input_types_module_name : string;
  cfg_arguments_generator : S;
  cfg_base_client_import : option ast.ImportFrom;
  cfg_unset_import : option ast.ImportFrom;
  cfg_custom_scalars : option (list (string * ScalarData))
}.

Definition construct (cfg : Config) (plugin_manager : option PluginManager)
    : ClientGenerator.t :=
  ClientGenerator.__init__ (cfg_name cfg) (cfg_base_client cfg)
    (cfg_enums_module_name cfg) (cfg_input_types_module_name cfg)
    (cfg_arguments_generator cfg) (cfg_base_client_import cfg)
    (cfg_unset_import cfg) (cfg_custom_scalars cfg) plugin_manager.

Definition run (cfg : Config) (plugin_manager : option PluginManager)
    (calls : list MethodCall) : GenError + ast.Module_ :=
  snd (ClientGenerator.generate (add_methods calls (construct cfg plugin_manager))).

End Runs.

(** The plugin-hook collection in which every hook is the identity. *)
Definition identity_plugins : PluginManager :=
  mkPluginManager (fun n => n) (fun n => n) (fun n => n) (fun n => n)
                  (fun n => n).

(** Modelled from the spec: the ArgumentsGenerator of arguments.py (the
    spec's Argument Serializer), which is not among the sources.  Given the
    ordered variable definitions it produces one parameter per variable after
    the receiver, typed by the GraphQL-type-to-target-type mapping (lists
    become sequence types, nullable types become optional types, default-less
    required types stay bare), and a mapping literal from parameter name to
    parameter value, a value being wrapped in a serialization call where its
    type requires one and being a plain reference when the variable has a
    default; it records the input types, enums and custom scalars it meets.
    Parameters carrying the default sentinel follow the bare ones. *)
Module SpecArguments.
Import ast codegen.

Inductive TypeKind : Type :=
| BuiltinScalar
| InputType
| EnumType
| CustomScalar.

Record t : Type := mk {
  kind_of : string -> TypeKind;
  serializer_of : string -> option string;
  used_inputs : list string;
  used_enums : list string;
  used_custom_scalars : list string
}.

Fixpoint named_type (ty : GraphQLType) : string :=
  match ty with
  | NamedType n => n
  | ListType ty' => named_type ty'
  | NonNullType ty' => named_type ty'
  end.

Definition is_nullable (ty : GraphQLType) : bool :=
  match ty with NonNullType _ => false | _ => true end.

Definition optional_if (nullable : bool) (e : expr) : expr :=
  if nullable then generate_subscript (generate_name OPTIONAL) e else e.

Fixpoint annotation_of (nullable : bool) (ty : GraphQLType) : expr :=
  match ty with
  | NonNullType ty' => annotation_of false ty'
  | NamedType n => optional_if nullable (generate_name n)
  | ListType ty' =>
      optional_if nullable
        (generate_subscript (generate_name LIST) (annotation_of true ty'))
  end.

Definition is_optional (vd : VariableDefinition) : bool :=
  is_nullable (graphql_type vd) || has_default vd.

Definition parameter (vd : VariableDefinition) : arg :=
  generate_arg (variable_name vd)
    (Some (optional_if (has_default vd && negb (is_nullable (graphql_type vd)))
             (annotation_of true (graphql_type vd)))).

Definition mapping_value (self : t) (vd : VariableDefinition) : expr :=
  if has_default vd then generate_name (variable_name vd)
  else
    match serializer_of self (named_type (graphql_type vd)) with
    | Some f =>
        generate_call (generate_name f) [generate_name (variable_name vd)] []
    | None => generate_name (variable_name vd)
    end.

Definition add_once (n : string) (l : list string) : list string :=
  if existsb (String.eqb n) l then l else l ++ [n].

Definition record_use (self : t) (vd : VariableDefinition) : t :=
  let n := named_type (graphql_type vd) in
  match kind_of self n with
  | InputType =>
      mk (kind_of self) (serializer_of self) (add_once n (used_inputs self))
         (used_enums self) (used_custom_scalars self)
  | EnumType =>
      mk (kind_of self) (serializer_of self) (used_inputs self)
         (add_once n (used_enums self)) (used_custom_scalars self)
  | CustomScalar =>
      mk (kind_of self) (serializer_of self) (used_inputs self)
         (used_enums self) (add_once n (used_custom_scalars self))
  | BuiltinScalar => self
  end.

Definition generate (self : t) (variable_definitions : list VariableDefinition)
    : (arguments * expr) * t :=
  let required_args :=
    map parameter (filter (fun vd => negb (is_optional vd)) variable_definitions) in
  let optional_args := map parameter (filter is_optional variable_definitions) in
  let arguments :=
    generate_arguments
      (generate_arg "self" None :: required_args ++ optional_args)
      (map (fun _ => generate_name "UNSET") optional_args) in
  let dict_ :=
    Dict (map (fun vd => generate_constant (variable_name vd))
              variable_definitions)
         (map (mapping_value self) variable_definitions) in
  ((arguments, dict_), fold_left record_use variable_definitions self).

#[global] Instance ops : ArgumentsGenerator.Ops t := {
  ArgumentsGenerator.generate := generate;
  ArgumentsGenerator.get_used_inputs := used_inputs;
  ArgumentsGenerator.get_used_enums := used_enums;
  ArgumentsGenerator.get_used_custom_scalars := used_custom_scalars
}.

End SpecArguments.

(** The parameters of a method beyond its receiver. *)
Definition parameters_beyond_receiver (f : ast.FunctionDef) : list ast.arg :=
  tl (ast.args (ast.fd_args f)).

(** ** What the properties below are stated with *)

(** The nulled payload: the structure with every binary file handle replaced
    by null. *)
Fixpoint nulled (env : Env) (obj : Value) : Value :=
  match obj with
  | VList items => VList (map (nulled env) items)
  | VDict entries =>
      VDict ((fix each (entries : Dict) (acc : Dict) {struct entries} : Dict :=
                match entries with
                | [] => acc
                | (key, value) :: rest =>
                    each rest (dict_set key (nulled env value) acc)
                end) entries [])
  | VFile h => if BaseClient.is_binary env h then VNone else obj
  | _ => obj
  end.

(** The places where a binary file handle is bound in a structure: the handle
    and its dotted path, in the order the depth-first walk meets them. *)
Fixpoint file_paths (env : Env) (path : string) (obj : Value)
    : list (Handle * string) :=
  match obj with
  | VList items =>
      (fix each (index : nat) (items : list Value) {struct items}
         : list (Handle * string) :=
         match items with
         | [] => []
         | value :: rest =>
             file_paths env (path ++ "." ++ str_of_nat index) value
             ++ each (S index) rest
         end) 0 items
  | VDict entries =>
      (fix each (entries : Dict) {struct entries} : list (Handle * string) :=
         match entries with
         | [] => []
         | (key, value) :: rest =>
             file_paths env (path ++ "." ++ key) value ++ each rest
         end) entries
  | VFile h => if BaseClient.is_binary env h then [(h, path)] else []
  | _ => []
  end.

(** Recording a list of occurrences, one after the other. *)
Definition record_all (occurrences : list (Handle * string))
    (m : BaseClient.FilesMap) : BaseClient.FilesMap :=
  fold_left (fun m hp => BaseClient.record_file (fst hp) (snd hp) m)
            occurrences m.

(** The distinct handles of a list, in the order of their first occurrence. *)
Definition see (seen : list Handle) (h : Handle) : list Handle :=
  if existsb (Nat.eqb h) seen then seen else seen ++ [h].

Definition first_seen (l : list Handle) : list Handle := fold_left see l [].

(** The paths listed under a handle. *)
Fixpoint paths_of (h : Handle) (m : BaseClient.FilesMap) : list string :=
  match m with
  | [] => []
  | (h', paths) :: rest => if Nat.eqb h h' then paths else paths_of h rest
  end.

(** The paths of the occurrences of one handle. *)
Definition paths_where (h : Handle) (occurrences : list (Handle * string))
    : list string :=
  map snd (filter (fun hp => Nat.eqb (fst hp) h) occurrences).

(** A structure holds a file-like value: an io object anywhere in it, also
    inside what a model serializes to. *)
Fixpoint has_file (v : Value) : bool :=
  match v with
  | VList items => existsb has_file items
  | VDict entries => existsb (fun kv => has_file (snd kv)) entries
  | VModel dump => existsb (fun kv => has_file (snd kv)) dump
  | VFile _ => true
  | _ => false
  end.

Definition no_file_like_values (variables : option Dict) : Prop :=
  match variables with
  | None => True
  | Some d => has_file (VDict d) = false
  end.

(** An entry of the variables mapping that is not bound to UNSET. *)
Definition is_set (kv : string * Value) : bool := negb (is_unset (snd kv)).

(** The payload [execute] builds. *)
Definition payload_of (query : string) (processed_variables : Value) : Value :=
  VDict [("query", VStr query); ("variables", processed_variables)].

(** The plain JSON request for a payload already encoded. *)
Definition json_request (self : BaseClient.t) (content : string) : Request :=
  PostJson (BaseClient.url self) content
           [("Content-Type", "application/json")].

(** The generator with another plugin manager and everything else as is. *)
Definition with_plugin_manager {S : Type} {SC : Scalars}
    (pm : option PluginManager) (g : @ClientGenerator.t S SC)
    : @ClientGenerator.t S SC :=
  ClientGenerator.mk
    (ClientGenerator.name g) (ClientGenerator.enums_module_name g)
    (ClientGenerator.input_types_module_name g) pm
    (ClientGenerator.custom_scalars g) (ClientGenerator.arguments_generator g)
    (ClientGenerator._imports g) (ClientGenerator._class_def g)
    (ClientGenerator._gql_func_name g)
    (ClientGenerator._operation_str_variable g)
    (ClientGenerator._variables_dict_variable g)
    (ClientGenerator._response_variable g)
    (ClientGenerator._data_variable g).

(** ** Further vocabulary for the properties of the rest of the code *)

Definition request_url (req : Request) : string :=
  match req with
  | PostJson u _ _ => u
  | PostMultipart u _ _ => u
  end.

(** No variables at all, an empty mapping, or every variable left UNSET. *)
Definition all_unset (variables : option Dict) : bool :=
  match variables with
  | None => true
  | Some d => forallb (fun kv => is_unset (snd kv)) d
  end.

Fixpoint distinct (l : list string) : bool :=
  match l with
  | [] => true
  | x :: rest => negb (existsb (String.eqb x) rest) && distinct rest
  end.

(** Every dictionary the walk of [separate_files] goes through has distinct
    keys, as dictionaries built by the interpreter have. *)
Fixpoint well_formed (v : Value) : bool :=
  match v with
  | VList items => forallb well_formed items
  | VDict entries =>
      distinct (map fst entries)
      && forallb (fun kv => well_formed (snd kv)) entries
  | _ => true
  end.

(** A model instance that is the value itself or sits in it under lists
    only. *)
Fixpoint model_through_lists (v : Value) : bool :=
  match v with
  | VModel _ => true
  | VList items => existsb model_through_lists items
  | _ => false
  end.

(** Text of the operation, as the generated constants spell it. *)
Fixpoint concat_strings (l : list string) : string :=
  match l with
  | [] => ""
  | x :: rest => (x ++ concat_strings rest)%string
  end.

Fixpoint ends_with_newline (s : string) : bool :=
  match s with
  | EmptyString => false
  | String c EmptyString => code_is 10 c
  | String _ rest => ends_with_newline rest
  end.

Definition ensure_newline (s : string) : string :=
  match s with
  | EmptyString => ""
  | _ => if ends_with_newline s then s else (s ++ String "010"%char "")%string
  end.

(** A line boundary other than LF starts at the head of the text: one of
    CR, VT, FF, FS, GS, RS, or the bytes of U+0085 (C2 85), U+2028
    (E2 80 A8) or U+2029 (E2 80 A9). *)
Definition other_boundary_at_head (s : string) : bool :=
  match s with
  | EmptyString => false
  | String c rest =>
      code_is 13 c || code_is 11 c || code_is 12 c || code_is 28 c
      || code_is 29 c || code_is 30 c
      || match rest with
         | EmptyString => false
         | String c2 rest2 =>
             (code_is 194 c && code_is 133 c2)
             || match rest2 with
                | EmptyString => false
                | String c3 _ =>
                    code_is 226 c && code_is 128 c2
                    && (code_is 168 c3 || code_is 169 c3)
                end
         end
  end.

(** The only line boundary in the text is LF. *)
Fixpoint only_lf_breaks (s : string) : bool :=
  match s with
  | EmptyString => true
  | String c rest =>
      negb (other_boundary_at_head (String c rest)) && only_lf_breaks rest
  end.

(** The constants [_generate_operation_str_assign] passes to [gql]. *)
Definition operation_constants (operation_str : string) : list string :=
  map (fun l => (l ++ String "010"%char "")%string) (splitlines operation_str).

Definition through_import_hook (plugin_manager : option PluginManager)
    (import_ : ast.ImportFrom) : ast.ImportFrom :=
  match plugin_manager with
  | Some pm => generate_client_import pm import_
  | None => import_
  end.

Definition through_gql_hook (plugin_manager : option PluginManager)
    (f : ast.FunctionDef) : ast.FunctionDef :=
  match plugin_manager with
  | Some pm => generate_gql_function pm f
  | None => f
  end.

Definition through_class_hook (plugin_manager : option PluginManager)
    (c : ast.ClassDef) : ast.ClassDef :=
  match plugin_manager with
  | Some pm => generate_client_class pm c
  | None => c
  end.

Definition through_module_hook (plugin_manager : option PluginManager)
    (m : ast.Module_) : ast.Module_ :=
  match plugin_manager with
  | Some pm => generate_client_module pm m
  | None => m
  end.

(** What is left of a list of imports handed to [_add_import] one by one:
    each goes through the import hook and is kept when it still names
    something to import and a module to import it from. *)
Definition kept_imports (plugin_manager : option PluginManager)
    (imports : list ast.ImportFrom) : list ast.ImportFrom :=
  filter ClientGenerator.import_is_kept
         (map (through_import_hook plugin_manager) imports).

Definition option_list {A} (o : option A) : list A :=
  match o with Some a => [a] | None => [] end.

(** The import [add_method] asks for. *)
Definition return_type_import (c : MethodCall) : ast.ImportFrom :=
  codegen.generate_import_from [call_return_type c]
                               (Some (call_return_type_module c)) 1.

Section GenerateVocabulary.

Context {S : Type} {AG : ArgumentsGenerator.Ops S} {SC : Scalars}.

(** The first used custom scalar the generator has no metadata for. *)
Definition missing_scalar (g : @ClientGenerator.t S SC) : option string :=
  find (fun n =>
          match ClientGenerator.lookup_scalar n (ClientGenerator.custom_scalars g) with
          | Some _ => false
          | None => true
          end)
       (ArgumentsGenerator.get_used_custom_scalars
          (ClientGenerator.arguments_generator g)).

(** The imports [generate] asks for, in order: used input types, used enums,
    then those of each used custom scalar. *)
Definition requested_imports (g : @ClientGenerator.t S SC)
    : list ast.ImportFrom :=
  [codegen.generate_import_from
     (ArgumentsGenerator.get_used_inputs (ClientGenerator.arguments_generator g))
     (Some (ClientGenerator.input_types_module_name g)) 1;
   codegen.generate_import_from
     (ArgumentsGenerator.get_used_enums (ClientGenerator.arguments_generator g))
     (Some (ClientGenerator.enums_module_name g)) 1]
  ++ flat_map
       (fun n =>
          match ClientGenerator.lookup_scalar n (ClientGenerator.custom_scalars g) with
          | Some scalar_data => generate_scalar_imports scalar_data
          | None => []
          end)
       (ArgumentsGenerator.get_used_custom_scalars
          (ClientGenerator.arguments_generator g)).

(** The helper function [gql] as [generate] places it. *)
Definition gql_function (g : @ClientGenerator.t S SC) (lineno : nat)
    : ast.FunctionDef :=
  ast.mk_FunctionDef false (ClientGenerator._gql_func_name g)
    (ast.mk_arguments [ast.mk_arg "q" (Some (ast.Name "str"))] [])
    [ast.Return (ast.Name "q")] (ast.Name "str") lineno.

(** The class as [generate] finishes it: line number set, [pass] for a body
    that has no statement. *)
Definition finished_class (g : @ClientGenerator.t S SC) (lineno : nat)
    : ast.ClassDef :=
  ast.mk_ClassDef (ast.cd_name (ClientGenerator._class_def g))
    (ast.cd_bases (ClientGenerator._class_def g))
    (codegen.body_or_pass (ast.cd_body (ClientGenerator._class_def g)))
    (Some lineno).

End GenerateVocabulary.

(** A run that uses a custom scalar the generator was given no metadata
    for. *)
Definition scalar_arguments : SpecArguments.t :=
  SpecArguments.mk
    (fun n => if String.eqb n "DateTime" then SpecArguments.CustomScalar
              else SpecArguments.BuiltinScalar)
    (fun _ => None) [] [] [].

(** An environment to evaluate the runtime on: handle 1 has no [mode]
    attribute, handle 2 is open in text mode, every other handle in binary
    mode; the encoder writes plain JSON text (no escaping) and refuses what
    JSON has no form for; the server always answers 200 with null data. *)
Definition quote_char : string := String "034"%char "".

Fixpoint join (sep : string) (l : list string) : string :=
  match l with
  | [] => ""
  | [x] => x
  | x :: rest => (x ++ sep ++ join sep rest)%string
  end.

Fixpoint collect {A} (l : list (result A)) : result (list A) :=
  match l with
  | [] => Ok []
  | Ok a :: rest =>
      match collect rest with Ok r => Ok (a :: r) | Raise e => Raise e end
  | Raise e :: _ => Raise e
  end.

Fixpoint sample_dumps (v : Value) : result string :=
  match v with
  | VNone => Ok "null"
  | VBool true => Ok "true"
  | VBool false => Ok "false"
  | VInt z => Ok (NilEmpty.string_of_int (Z.to_int z))
  | VStr s => Ok (quote_char ++ s ++ quote_char)%string
  | VList items =>
      match collect (map sample_dumps items) with
      | Ok parts => Ok ("[" ++ join ", " parts ++ "]")%string
      | Raise e => Raise e
      end
  | VDict entries =>
      match collect (map (fun kv =>
                            match sample_dumps (snd kv) with
                            | Ok s => Ok (quote_char ++ fst kv ++ quote_char
                                          ++ ": " ++ s)%string
                            | Raise e => Raise e
                            end) entries) with
      | Ok parts => Ok ("{" ++ join ", " parts ++ "}")%string
      | Raise e => Raise e
      end
  | _ => Raise (OtherError "TypeError: not JSON serializable")
  end.

Definition sample_env : Env :=
  mkEnv (fun h => if Nat.eqb h 1 then None
                  else if Nat.eqb h 2 then Some "r" else Some "rb")
        sample_dumps
        (fun _ _ _ => Ok (mkResponse 200 (Some (VDict [("data", VNone)])))).

Definition sample_client : BaseClient.t :=
  BaseClient.mk "https://example.test/graphql" None 0.

Definition empty_world : World := mkWorld 1 [].

(** A generation run to evaluate the generator on: no custom scalars, a
    schema with one input type and one enum, three operations, and a plugin
    manager whose method hook renames what it is given. *)
#[global] Instance sample_scalars : Scalars := {
  ScalarData := unit;
  generate_scalar_imports := fun _ => []
}.

Definition sample_arguments : SpecArguments.t :=
  SpecArguments.mk
    (fun n => if String.eqb n "UserInput" then SpecArguments.InputType
              else if String.eqb n "Role" then SpecArguments.EnumType
              else SpecArguments.BuiltinScalar)
    (fun _ => None) [] [] [].

Definition sample_config : @Config SpecArguments.t sample_scalars :=
  mkConfig "Client" "BaseClient" "enums" "input_types" sample_arguments
           (Some (ast.mk_ImportFrom (Some "base_client") ["BaseClient"] 1))
           None None.

Definition sample_calls : list MethodCall :=
  [mkMethodCall
     (mkOperation [mkVariableDefinition "id" (NonNullType (NamedType "ID")) false;
                   mkVariableDefinition "role" (NamedType "Role") false])
     "get_user" "GetUser" "get_user" "query GetUser { user }" true;
   mkMethodCall (mkOperation []) "list_users" "ListUsers" "list_users"
                "query ListUsers { users }" false;
   mkMethodCall
     (mkOperation [mkVariableDefinition "data"
                     (NonNullType (NamedType "UserInput")) false])
     "create_user" "CreateUser" "create_user" "mutation CreateUser { x }" true].

Definition renaming_plugins : PluginManager :=
  mkPluginManager
    (fun n => n) (fun n => n)
    (fun f => ast.mk_FunctionDef (ast.fd_is_async f)
                (ast.fd_name f ++ "_hooked") (ast.fd_args f) (ast.fd_body f)
                (ast.fd_returns f) (ast.fd_lineno f))
    (fun n => n) (fun n => n).

Definition scalar_config : @Config SpecArguments.t sample_scalars :=
  mkConfig "Client" "BaseClient" "enums" "input_types" scalar_arguments
           None None None.

Definition scalar_calls : list MethodCall :=
  [mkMethodCall
     (mkOperation [mkVariableDefinition "at"
                     (NonNullType (NamedType "DateTime")) false])
     "events_at" "EventsAt" "events_at" "query EventsAt { events }" true].

(** An operation text of two lines with a pound sign (bytes C2 A3) and a
    euro sign (bytes E2 82 AC) in it. *)
Definition priced_query : string :=
  ("query Q {" ++ String "010"%char
     ("  price(in: " ++ String "194"%char (String "163"%char
        (", " ++ String "226"%char (String "130"%char (String "172"%char
           (") }"))))))).

Definition sample_generator : @ClientGenerator.t SpecArguments.t sample_scalars :=
  construct sample_config (Some renaming_plugins).

Definition second_call : MethodCall :=
  mkMethodCall (mkOperation []) "list_users" "ListUsers" "list_users"
               "query ListUsers { users }" false.

(** One upload bound twice (handle 5) and another bound once (handle 9). *)
Definition sample_upload : Dict :=
  [("a", VFile 5); ("b", VList [VFile 9; VFile 5])].

(** * Properties *)

(** ** Induction over values *)

Section ValueInduction.

Variable P : Value -> Prop.
Hypothesis HNone : P VNone.
Hypothesis HUnset : P VUnset.
Hypothesis HBool : forall b, P (VBool b).
Hypothesis HInt : forall z, P (VInt z).
Hypothesis HStr : forall s, P (VStr s).
Hypothesis HList : forall items, Forall P items -> P (VList items).
Hypothesis HDict :
  forall entries, Forall (fun kv => P (snd kv)) entries -> P (VDict entries).
Hypothesis HModel :
  forall dump, Forall (fun kv => P (snd kv)) dump -> P (VModel dump).
Hypothesis HFile : forall h, P (VFile h).
Hypothesis HOther : forall tag truth, P (VOther tag truth).

Fixpoint Value_nested_ind (v : Value) : P v :=
  match v with
  | VNone => HNone
  | VUnset => HUnset
  | VBool b => HBool b
  | VInt z => HInt z
  | VStr s => HStr s
  | VList items =>
      HList items
        ((fix all (l : list Value) : Forall P l :=
            match l with
            | [] => Forall_nil P
            | x :: r => Forall_cons x (Value_nested_ind x) (all r)
            end) items)
  | VDict entries =>
      HDict entries
        ((fix all (l : Dict) : Forall (fun kv => P (snd kv)) l :=
            match l with
            | [] => Forall_nil _
            | (k, x) :: r =>
                Forall_cons (P := fun kv => P (snd kv)) (k, x)
                            (Value_nested_ind x) (all r)
            end) entries)
  | VModel dump =>
      HModel dump
        ((fix all (l : Dict) : Forall (fun kv => P (snd kv)) l :=
            match l with
            | [] => Forall_nil _
            | (k, x) :: r =>
                Forall_cons (P := fun kv => P (snd kv)) (k, x)
                            (Value_nested_ind x) (all r)
            end) dump)
  | VFile h => HFile h
  | VOther tag truth => HOther tag truth
  end.

End ValueInduction.

(** ** Dictionaries *)

Lemma dict_get_set_same (key : string) (value : Value) (d : Dict) :
  dict_get key (dict_set key value d) = Some value.
Proof.
  induction d as [|[k v] rest IH]; simpl.
  - now rewrite String.eqb_refl.
  - destruct (String.eqb key k) eqn:E; simpl; rewrite E; auto.
Qed.

Lemma dict_get_set_other (key key' : string) (value : Value) (d : Dict) :
  key' <> key ->
  dict_get key' (dict_set key value d) = dict_get key' d.
Proof.
  intros Hne. induction d as [|[k v] rest IH]; simpl.
  - destruct (String.eqb key' key) eqn:E; auto.
    apply String.eqb_eq in E. contradiction.
  - destruct (String.eqb key k) eqn:E; simpl.
    + apply String.eqb_eq in E. subst k.
      destruct (String.eqb key' key) eqn:E'; auto.
      apply String.eqb_eq in E'. contradiction.
    + destruct (String.eqb key' k); auto.
Qed.

Lemma dict_get_absent (key : string) (d : Dict) :
  ~ In key (dict_keys d) -> dict_get key d = None.
Proof.
  induction d as [|[k v] rest IH]; simpl; intros Hn; auto.
  destruct (String.eqb key k) eqn:E.
  - apply String.eqb_eq in E. subst. tauto.
  - apply IH. tauto.
Qed.

(** ** The walk of [separate_files] *)

Lemma record_all_app (l1 l2 : list (Handle * string)) (m : BaseClient.FilesMap) :
  record_all (l1 ++ l2) m = record_all l2 (record_all l1 m).
Proof. unfold record_all. apply fold_left_app. Qed.

(** The walk returns the nulled payload and records the occurrences of binary
    file handles in the order it meets them. *)
Lemma separate_files_spec (env : Env) (obj : Value) :
  forall path m,
    BaseClient.separate_files env path obj m
    = (nulled env obj, record_all (file_paths env path obj) m).
Proof.
  induction obj using Value_nested_ind; intros path m; try reflexivity.
  - (* list *)
    simpl.
    assert (Hloop : forall index acc m0,
      (fix each (index : nat) (items : list Value) (nulled_list : list Value)
               (m : BaseClient.FilesMap) {struct items}
         : list Value * BaseClient.FilesMap :=
         match items with
         | [] => (nulled_list, m)
         | value :: rest =>
             let '(value', m') :=
               BaseClient.separate_files env
                 (path ++ "." ++ str_of_nat index) value m in
             each (S index) rest (nulled_list ++ [value']) m'
         end) index items acc m0
      = (acc ++ map (nulled env) items,
         record_all
           ((fix each (index : nat) (items : list Value) {struct items}
               : list (Handle * string) :=
               match items with
               | [] => []
               | value :: rest =>
                   file_paths env (path ++ "." ++ str_of_nat index) value
                   ++ each (S index) rest
               end) index items) m0)).
    { induction H as [|x rest Hx Hrest IH]; intros index acc m0.
      - simpl. now rewrite app_nil_r.
      - simpl. rewrite Hx. rewrite IH. rewrite record_all_app.
        now rewrite <- app_assoc. }
    rewrite Hloop. reflexivity.
  - (* dict *)
    simpl.
    assert (Hloop : forall acc m0,
      (fix each (entries : Dict) (nulled_dict : Dict)
               (m : BaseClient.FilesMap) {struct entries}
         : Dict * BaseClient.FilesMap :=
         match entries with
         | [] => (nulled_dict, m)
         | (key, value) :: rest =>
             let '(value', m') :=
               BaseClient.separate_files env (path ++ "." ++ key) value m in
             each rest (dict_set key value' nulled_dict) m'
         end) entries acc m0
      = ((fix each (entries : Dict) (acc : Dict) {struct entries} : Dict :=
            match entries with
            | [] => acc
            | (key, value) :: rest =>
                each rest (dict_set key (nulled env value) acc)
            end) entries acc,
         record_all
           ((fix each (entries : Dict) {struct entries}
               : list (Handle * string) :=
               match entries with
               | [] => []
               | (key, value) :: rest =>
                   file_paths env (path ++ "." ++ key) value ++ each rest
               end) entries) m0)).
    { induction H as [|[k x] rest Hx Hrest IH]; intros acc m0.
      - reflexivity.
      - simpl in Hx. simpl. rewrite Hx. rewrite IH. now rewrite record_all_app. }
    rewrite Hloop. reflexivity.
  - (* file *)
    simpl. destruct (BaseClient.is_binary env h); reflexivity.
Qed.

Lemma dict_set_fresh (key : string) (value : Value) (d : Dict) :
  ~ In key (dict_keys d) -> dict_set key value d = d ++ [(key, value)].
Proof.
  induction d as [|[k v] rest IH]; simpl; intros Hn; auto.
  destruct (String.eqb key k) eqn:E.
  - apply String.eqb_eq in E. subst. tauto.
  - f_equal. apply IH. tauto.
Qed.

Lemma dict_get_present (key : string) (d : Dict) :
  In key (dict_keys d) -> exists v, dict_get key d = Some v.
Proof.
  induction d as [|[k v] rest IH]; simpl; intros Hin; [tauto|].
  destruct (String.eqb key k) eqn:E; [eauto|].
  destruct Hin as [Hk|Hin]; [|auto].
  subst. now rewrite String.eqb_refl in E.
Qed.

Lemma dict_get_In (key : string) (v : Value) (d : Dict) :
  dict_get key d = Some v -> In (key, v) d.
Proof.
  induction d as [|[k x] rest IH]; simpl; [discriminate|].
  destruct (String.eqb key k) eqn:E; intros H.
  - apply String.eqb_eq in E. inversion H. subst. auto.
  - auto.
Qed.

Lemma dict_get_map_values (f : Value -> Value) (key : string) (d : Dict) :
  dict_get key (map (fun kv => (fst kv, f (snd kv))) d)
  = option_map f (dict_get key d).
Proof.
  induction d as [|[k v] rest IH]; simpl; auto.
  destruct (String.eqb key k); auto.
Qed.

Lemma dict_keys_map_values (f : Value -> Value) (d : Dict) :
  dict_keys (map (fun kv => (fst kv, f (snd kv))) d) = dict_keys d.
Proof. unfold dict_keys. rewrite map_map. reflexivity. Qed.

Lemma dict_keys_filter_incl (p : string * Value -> bool) (d : Dict) :
  forall k, In k (dict_keys (filter p d)) -> In k (dict_keys d).
Proof.
  unfold dict_keys. intros k Hin. apply in_map_iff in Hin.
  destruct Hin as [[k' v] [Hk Hin]]. apply filter_In in Hin.
  apply in_map_iff. exists (k', v). tauto.
Qed.

Lemma dict_keys_filter_NoDup (p : string * Value -> bool) (d : Dict) :
  NoDup (dict_keys d) -> NoDup (dict_keys (filter p d)).
Proof.
  induction d as [|[k v] rest IH]; simpl; intros Hnd; auto.
  inversion Hnd; subst.
  destruct (p (k, v)); simpl; auto.
  constructor; auto.
  intros Hin. apply dict_keys_filter_incl in Hin. contradiction.
Qed.

(** With distinct keys, as a dictionary has them, the comprehension is a
    filter followed by a map. *)
Lemma convert_dict_fold (d : Dict) :
  forall acc,
    NoDup (dict_keys acc ++ dict_keys d) ->
    fold_left
      (fun acc kv =>
         if is_unset (snd kv) then acc
         else dict_set (fst kv) (BaseClient._convert_value (snd kv)) acc)
      d acc
    = acc ++ map (fun kv => (fst kv, BaseClient._convert_value (snd kv)))
                 (filter is_set d).
Proof.
  induction d as [|[k v] rest IH]; intros acc Hnd; simpl.
  - now rewrite app_nil_r.
  - simpl in Hnd. unfold is_set at 1. simpl.
    destruct (is_unset v) eqn:Eu; simpl.
    + apply IH. eapply NoDup_remove_1; eauto.
    + rewrite IH.
      * rewrite dict_set_fresh.
        -- now rewrite <- app_assoc.
        -- apply NoDup_remove_2 in Hnd. intros Hin. apply Hnd.
           apply in_or_app. auto.
      * rewrite dict_set_fresh.
        -- unfold dict_keys in *. rewrite map_app. simpl.
           now rewrite <- app_assoc.
        -- apply NoDup_remove_2 in Hnd. intros Hin. apply Hnd.
           apply in_or_app. auto.
Qed.

Lemma convert_dict_spec (d : Dict) :
  NoDup (dict_keys d) ->
  BaseClient._convert_dict_to_json_serializable d
  = map (fun kv => (fst kv, BaseClient._convert_value (snd kv)))
        (filter is_set d).
Proof.
  intros Hnd. unfold BaseClient._convert_dict_to_json_serializable.
  now rewrite convert_dict_fold.
Qed.

Lemma nulled_dict_fold (env : Env) (d : Dict) :
  forall acc,
    NoDup (dict_keys acc ++ dict_keys d) ->
    (fix each (entries : Dict) (acc : Dict) {struct entries} : Dict :=
       match entries with
       | [] => acc
       | (key, value) :: rest =>
           each rest (dict_set key (nulled env value) acc)
       end) d acc
    = acc ++ map (fun kv => (fst kv, nulled env (snd kv))) d.
Proof.
  induction d as [|[k v] rest IH]; intros acc Hnd; simpl.
  - now rewrite app_nil_r.
  - simpl in Hnd.
    assert (Hk : ~ In k (dict_keys acc)).
    { apply NoDup_remove_2 in Hnd. intros Hin. apply Hnd.
      apply in_or_app. auto. }
    rewrite IH; rewrite dict_set_fresh by exact Hk.
    + now rewrite <- app_assoc.
    + unfold dict_keys in *. rewrite map_app. simpl. now rewrite <- app_assoc.
Qed.

Lemma nulled_dict_spec (env : Env) (d : Dict) :
  NoDup (dict_keys d) ->
  nulled env (VDict d) = VDict (map (fun kv => (fst kv, nulled env (snd kv))) d).
Proof.
  intros Hnd. simpl. now rewrite nulled_dict_fold.
Qed.

Lemma dict_get_filter_set (key : string) (d : Dict) :
  NoDup (dict_keys d) ->
  dict_get key (filter is_set d)
  = match dict_get key d with
    | Some v => if is_unset v then None else Some v
    | None => None
    end.
Proof.
  induction d as [|[k v] rest IH]; simpl; intros Hnd; auto.
  inversion Hnd; subst.
  unfold is_set at 1. simpl.
  destruct (String.eqb key k) eqn:E.
  - apply String.eqb_eq in E. subst k.
    destruct (is_unset v); simpl.
    + apply dict_get_absent. intros Hin.
      apply dict_keys_filter_incl in Hin. contradiction.
    + now rewrite String.eqb_refl.
  - destruct (is_unset v); simpl; [|rewrite E]; auto.
Qed.

Lemma process_variables_spec (env : Env) (variables : Dict) :
  BaseClient._process_variables env (Some variables)
  = (nulled env (VDict (BaseClient._convert_dict_to_json_serializable variables)),
     record_all
       (file_paths env "variables"
          (VDict (BaseClient._convert_dict_to_json_serializable variables)))
       []).
Proof.
  destruct variables as [|kv rest].
  - reflexivity.
  - unfold BaseClient._process_variables, BaseClient._get_files_from_variables.
    apply separate_files_spec.
Qed.

(** C2.  Variable normalization omits every top-level key bound to the UNSET
    sentinel from the serialized variables mapping (both after the conversion
    step and in what [execute] puts in the payload), and keeps a key bound to
    null, with value null. *)
Theorem unset_omitted_null_kept (env : Env) (variables : Dict) (key : string) :
  NoDup (dict_keys variables) ->
  exists processed,
    fst (BaseClient._process_variables env (Some variables)) = VDict processed
    /\ (dict_get key variables = Some VUnset ->
        ~ In key (dict_keys (BaseClient._convert_dict_to_json_serializable variables))
        /\ ~ In key (dict_keys processed))
    /\ (dict_get key variables = Some VNone ->
        dict_get key (BaseClient._convert_dict_to_json_serializable variables)
        = Some VNone
        /\ dict_get key processed = Some VNone).
Proof.
  intros Hnd.
  pose proof (convert_dict_spec variables Hnd) as Hconv.
  assert (Hnd' : NoDup (dict_keys
                   (BaseClient._convert_dict_to_json_serializable variables))).
  { rewrite Hconv, dict_keys_map_values. now apply dict_keys_filter_NoDup. }
  exists (map (fun kv => (fst kv, nulled env (snd kv)))
              (BaseClient._convert_dict_to_json_serializable variables)).
  split; [|split].
  - rewrite process_variables_spec. simpl fst. now apply nulled_dict_spec.
  - intros Hget.
    assert (Hnone : dict_get key
              (BaseClient._convert_dict_to_json_serializable variables) = None).
    { rewrite Hconv, dict_get_map_values, dict_get_filter_set, Hget by exact Hnd.
      reflexivity. }
    assert (Habs : ~ In key (dict_keys
              (BaseClient._convert_dict_to_json_serializable variables))).
    { intros Hin. apply dict_get_present in Hin. destruct Hin as [v Hv].
      congruence. }
    split; [exact Habs|]. now rewrite dict_keys_map_values.
  - intros Hget.
    assert (Hsome : dict_get key
              (BaseClient._convert_dict_to_json_serializable variables)
              = Some VNone).
    { rewrite Hconv, dict_get_map_values, dict_get_filter_set, Hget by exact Hnd.
      reflexivity. }
    split; [exact Hsome|]. rewrite dict_get_map_values, Hsome. reflexivity.
Qed.

Lemma unset_omitted_null_kept_witness :
  exists processed,
    fst (BaseClient._process_variables sample_env
           (Some [("a", VUnset); ("b", VNone); ("c", VInt 3)]))
    = VDict processed
    /\ (dict_get "a" [("a", VUnset); ("b", VNone); ("c", VInt 3)] = Some VUnset ->
        ~ In "a" (dict_keys (BaseClient._convert_dict_to_json_serializable
                               [("a", VUnset); ("b", VNone); ("c", VInt 3)]))
        /\ ~ In "a" (dict_keys processed))
    /\ (dict_get "a" [("a", VUnset); ("b", VNone); ("c", VInt 3)] = Some VNone ->
        dict_get "a" (BaseClient._convert_dict_to_json_serializable
                        [("a", VUnset); ("b", VNone); ("c", VInt 3)])
        = Some VNone
        /\ dict_get "a" processed = Some VNone).
Proof.
  apply (unset_omitted_null_kept sample_env
           [("a", VUnset); ("b", VNone); ("c", VInt 3)] "a").
  unfold dict_keys. simpl.
  repeat constructor; simpl; intuition discriminate.
Defined.

(** ** [get_data] *)

(** C4.  For a response whose transport status is not success, [get_data]
    fails with the HTTP error carrying the status code and the raw response,
    and the body is never decoded: the world is left as it was, so no
    [JsonDecoded] event is logged. *)
Theorem get_data_http_error (self : BaseClient.t) (response : Response)
    (w : World) :
  is_success response = false ->
  BaseClient.get_data self response w
  = (Raise (GraphQLClientHttpError (status_code response) response), w)
  /\ ~ In (JsonDecoded response)
          (skipn (List.length (events w))
                 (events (snd (BaseClient.get_data self response w)))).
Proof.
  intros Hfail. unfold BaseClient.get_data. rewrite Hfail. simpl.
  split; [reflexivity|].
  unfold raise. simpl. rewrite skipn_all. auto.
Qed.

Lemma get_data_http_error_witness :
  BaseClient.get_data sample_client
    (mkResponse 500 (Some (VDict [("data", VNone)]))) empty_world
  = (Raise (GraphQLClientHttpError 500
              (mkResponse 500 (Some (VDict [("data", VNone)])))),
     empty_world)
  /\ ~ In (JsonDecoded (mkResponse 500 (Some (VDict [("data", VNone)]))))
          (skipn (List.length (events empty_world))
                 (events (snd (BaseClient.get_data sample_client
                                 (mkResponse 500 (Some (VDict [("data", VNone)])))
                                 empty_world)))).
Proof.
  apply (get_data_http_error sample_client
           (mkResponse 500 (Some (VDict [("data", VNone)]))) empty_world).
  reflexivity.
Defined.

(** C3.  For a success response whose body decodes to an object with a
    [data] key and a non-empty [errors] array, [get_data] fails with the
    aggregate GraphQL error built from that array, one GraphQLError per entry
    in order, carrying the [data] value. *)
Theorem get_data_graphql_errors (self : BaseClient.t) (response : Response)
    (w : World) (body : Dict) (data first : Value) (others : list Value) :
  is_success response = true ->
  json_body response = Some (VDict body) ->
  dict_get "data" body = Some data ->
  dict_get "errors" body = Some (VList (first :: others)) ->
  BaseClient.get_data self response w
  = (Raise (GraphQLClientGraphQLMultiError
              (map BaseClient.from_dict (first :: others)) data),
     log (JsonDecoded response) w).
Proof.
  intros Hok Hbody Hdata Herrors.
  unfold BaseClient.get_data. rewrite Hok. simpl negb. cbv iota.
  unfold bind, BaseClient.response_json. rewrite Hbody.
  rewrite Hdata, Herrors. reflexivity.
Qed.

(** The spec's example: the body
    {"data": {"x": 1}, "errors": [{"message": "boom"}]}. *)
Lemma get_data_graphql_errors_witness :
  BaseClient.get_data sample_client
    (mkResponse 200
       (Some (VDict [("data", VDict [("x", VInt 1)]);
                     ("errors", VList [VDict [("message", VStr "boom")]])])))
    empty_world
  = (Raise (GraphQLClientGraphQLMultiError
              [mkGraphQLError (Some (VStr "boom")) None None]
              (VDict [("x", VInt 1)])),
     log (JsonDecoded
            (mkResponse 200
               (Some (VDict [("data", VDict [("x", VInt 1)]);
                             ("errors",
                              VList [VDict [("message", VStr "boom")]])]))))
         empty_world).
Proof.
  apply (get_data_graphql_errors sample_client
           (mkResponse 200
              (Some (VDict [("data", VDict [("x", VInt 1)]);
                            ("errors", VList [VDict [("message", VStr "boom")]])])))
           empty_world
           [("data", VDict [("x", VInt 1)]);
            ("errors", VList [VDict [("message", VStr "boom")]])]
           (VDict [("x", VInt 1)])
           (VDict [("message", VStr "boom")]) []);
    reflexivity.
Defined.

(** ** Scoped teardown *)

(** C1, as stated, fails: a client constructed around an injected handle
    closes that handle when the scope is left. *)
Lemma injected_handle_closed_on_exit :
  let injected := 7 in
  let w0 := mkWorld 8 [] in
  match BaseClient.__init__ "u" None (Some injected) w0 with
  | (Ok self, w1) =>
      BaseClient.http_client self = injected
      /\ is_closed injected w1 = false
      /\ is_closed injected
           (snd (BaseClient.__exit__ self None None None w1)) = true
  | (Raise _, _) => False
  end.
Proof. simpl. repeat split. Qed.

Lemma closed_in_app (h : Handle) (l1 l2 : list Event) :
  closed_in h (l1 ++ l2) = closed_in h l1 || closed_in h l2.
Proof.
  induction l1 as [|e rest IH]; simpl; auto.
  destruct e; auto. rewrite IH. now rewrite orb_assoc.
Qed.

(** C1, amended.  The constructor keeps the injected handle when one is given
    and a fresh one otherwise; [__exit__] closes the handle the client holds,
    whichever of the two it is and whatever exception information it is
    given, and logs nothing else; a scope is left with that handle closed,
    whether its body returns or raises. *)
Theorem exit_closes_held_handle (url : string)
    (headers : option (list (string * string))) (http_client : option Handle)
    (w : World) :
  exists self w1,
    BaseClient.__init__ url headers http_client w = (Ok self, w1)
    /\ BaseClient.http_client self
       = match http_client with Some h => h | None => next_handle w end
    /\ (forall exc_type exc_val exc_tb w',
          BaseClient.__exit__ self exc_type exc_val exc_tb w'
          = (Ok tt, log (Closed (BaseClient.http_client self)) w'))
    /\ (forall (A : Type) (body : BaseClient.t -> M A) w',
          is_closed (BaseClient.http_client self)
                    (snd (BaseClient.with_ self body w')) = true).
Proof.
  destruct http_client as [h|]; simpl.
  - exists (BaseClient.mk url headers h), w. repeat split.
    intros A body w'. unfold BaseClient.with_, BaseClient.__enter__, ret.
    destruct (body (BaseClient.mk url headers h) w') as [[a|e] w1]; simpl;
      unfold is_closed; simpl; rewrite closed_in_app; simpl;
      rewrite Nat.eqb_refl; now rewrite orb_true_r.
  - eexists. eexists. split; [reflexivity|]. simpl. repeat split.
    intros A body w'. unfold BaseClient.with_, BaseClient.__enter__, ret.
    match goal with |- context [body ?c w'] =>
      destruct (body c w') as [[a|e] w1] end; simpl;
      unfold is_closed; simpl; rewrite closed_in_app; simpl;
      rewrite Nat.eqb_refl; now rewrite orb_true_r.
Qed.

(** ** File extraction and the choice of request *)

Lemma execute_unfold (env : Env) (self : BaseClient.t) (query : string)
    (variables : option Dict) :
  BaseClient.execute env self query variables
  = match snd (BaseClient._process_variables env variables) with
    | _ :: _ =>
        BaseClient._execute_multipart env self
          (payload_of query (fst (BaseClient._process_variables env variables)))
          (snd (BaseClient._process_variables env variables))
    | [] =>
        BaseClient._execute_json env self
          (payload_of query (fst (BaseClient._process_variables env variables)))
    end.
Proof.
  unfold BaseClient.execute.
  destruct (BaseClient._process_variables env variables) as [processed m].
  reflexivity.
Qed.

(** C10.  Whether an io object is extracted is decided by its [mode]: an
    object with no [mode] attribute counts as binary, is recorded in the File
    Reference Map and replaced by null, and a mapping binding it goes out as
    a multipart request; an object whose mode has no "b" stays where it is,
    records nothing, and a mapping binding it goes out as plain JSON. *)
Theorem mode_decides_extraction (env : Env) (self : BaseClient.t)
    (query key path : string) (h : Handle) (m : BaseClient.FilesMap) :
  let binary :=
    match file_mode env h with
    | None => true
    | Some mode => BaseClient.contains_b mode
    end in
  BaseClient.separate_files env path (VFile h) m
  = (if binary then (VNone, BaseClient.record_file h path m) else (VFile h, m))
  /\ BaseClient._process_variables env (Some [(key, VFile h)])
     = (if binary
        then (VDict [(key, VNone)], [(h, [("variables" ++ "." ++ key)%string])])
        else (VDict [(key, VFile h)], []))
  /\ BaseClient.execute env self query (Some [(key, VFile h)])
     = (if binary
        then BaseClient._execute_multipart env self
               (payload_of query (VDict [(key, VNone)]))
               [(h, [("variables" ++ "." ++ key)%string])]
        else BaseClient._execute_json env self
               (payload_of query (VDict [(key, VFile h)]))).
Proof.
  intros binary.
  assert (Hbin : BaseClient.is_binary env h = binary).
  { unfold BaseClient.is_binary, binary. destruct (file_mode env h); reflexivity. }
  assert (Hproc : BaseClient._process_variables env (Some [(key, VFile h)])
     = (if binary
        then (VDict [(key, VNone)], [(h, [("variables" ++ "." ++ key)%string])])
        else (VDict [(key, VFile h)], []))).
  { unfold BaseClient._process_variables, BaseClient._get_files_from_variables,
      BaseClient._convert_dict_to_json_serializable. simpl.
    rewrite Hbin. destruct binary; reflexivity. }
  split; [|split].
  - simpl. rewrite Hbin. reflexivity.
  - exact Hproc.
  - rewrite execute_unfold, Hproc. destruct binary; reflexivity.
Qed.

Lemma has_file_convert_value (v : Value) :
  has_file (BaseClient._convert_value v) = has_file v.
Proof.
  induction v using Value_nested_ind; try reflexivity.
  simpl. induction H as [|x rest Hx Hrest IH]; simpl; auto.
  now rewrite Hx, IH.
Qed.

Lemma has_file_dict_set (key : string) (value : Value) (d : Dict) :
  has_file value = false ->
  existsb (fun kv => has_file (snd kv)) d = false ->
  existsb (fun kv => has_file (snd kv)) (dict_set key value d) = false.
Proof.
  intros Hv. induction d as [|[k v] rest IH]; simpl; intros Hd.
  - now rewrite Hv.
  - apply orb_false_iff in Hd. destruct Hd as [Hk Hrest].
    destruct (String.eqb key k); simpl.
    + now rewrite Hv.
    + rewrite Hk. now apply IH.
Qed.

Lemma has_file_convert_dict (d : Dict) :
  has_file (VDict d) = false ->
  has_file (VDict (BaseClient._convert_dict_to_json_serializable d)) = false.
Proof.
  unfold BaseClient._convert_dict_to_json_serializable. simpl.
  assert (Hgen : forall acc,
    existsb (fun kv => has_file (snd kv)) acc = false ->
    existsb (fun kv => has_file (snd kv)) d = false ->
    existsb (fun kv => has_file (snd kv))
      (fold_left
         (fun acc kv =>
            if is_unset (snd kv) then acc
            else dict_set (fst kv) (BaseClient._convert_value (snd kv)) acc)
         d acc) = false).
  { induction d as [|[k v] rest IH]; simpl; intros acc Hacc Hd; auto.
    apply orb_false_iff in Hd. destruct Hd as [Hv Hrest].
    apply IH; auto.
    destruct (is_unset v); auto.
    apply has_file_dict_set; auto. now rewrite has_file_convert_value. }
  intros Hd. now apply Hgen.
Qed.

Lemma no_file_no_paths (env : Env) (v : Value) :
  has_file v = false -> forall path, file_paths env path v = [].
Proof.
  induction v using Value_nested_ind; intros Hv path; try reflexivity.
  - simpl in Hv. simpl. generalize 0.
    induction H as [|x rest Hx Hrest IH]; intros index; auto.
    simpl in Hv. apply orb_false_iff in Hv. destruct Hv as [Hx' Hrest'].
    rewrite Hx by exact Hx'. simpl. now apply IH.
  - simpl in Hv. simpl.
    induction H as [|[k x] rest Hx Hrest IH]; auto.
    simpl in Hv, Hx. apply orb_false_iff in Hv. destruct Hv as [Hx' Hrest'].
    rewrite Hx by exact Hx'. simpl. now apply IH.
  - discriminate.
Qed.

Lemma execute_json_unfold (env : Env) (self : BaseClient.t) (payload : Value)
    (w : World) :
  BaseClient._execute_json env self payload w
  = match json_dumps env payload with
    | Ok content =>
        (transport env w (BaseClient.http_client self)
                   (json_request self content),
         log (Sent (BaseClient.http_client self) (json_request self content)) w)
    | Raise e => (Raise e, w)
    end.
Proof.
  unfold BaseClient._execute_json, bind, lift.
  destruct (json_dumps env payload); reflexivity.
Qed.

Lemma execute_multipart_unfold (env : Env) (self : BaseClient.t)
    (payload : Value) (m : BaseClient.FilesMap) (w : World) :
  BaseClient._execute_multipart env self payload m w
  = match json_dumps env payload with
    | Raise e => (Raise e, w)
    | Ok operations =>
        match json_dumps env
                (BaseClient.files_map_value (BaseClient.files_map_of m)) with
        | Raise e => (Raise e, w)
        | Ok map_ =>
            (transport env w (BaseClient.http_client self)
               (PostMultipart (BaseClient.url self)
                  [("operations", operations); ("map", map_)]
                  (BaseClient.files_of m)),
             log (Sent (BaseClient.http_client self)
                    (PostMultipart (BaseClient.url self)
                       [("operations", operations); ("map", map_)]
                       (BaseClient.files_of m))) w)
        end
    end.
Proof.
  unfold BaseClient._execute_multipart, bind, lift.
  destruct (json_dumps env payload); [|reflexivity].
  destruct (json_dumps env _); reflexivity.
Qed.

(** C6.  For a variables structure with no file-like value, normalization
    yields an empty File Reference Map and [execute] takes the plain JSON
    path: once the payload is encoded, the one request it sends is the JSON
    request, and when the encoder refuses the payload nothing is sent. *)
Theorem no_files_plain_json (env : Env) (self : BaseClient.t) (query : string)
    (variables : option Dict) :
  no_file_like_values variables ->
  snd (BaseClient._process_variables env variables) = []
  /\ BaseClient.execute env self query variables
     = BaseClient._execute_json env self
         (payload_of query (fst (BaseClient._process_variables env variables)))
  /\ forall w,
       BaseClient.execute env self query variables w
       = match json_dumps env
                 (payload_of query
                    (fst (BaseClient._process_variables env variables))) with
         | Ok content =>
             (transport env w (BaseClient.http_client self)
                        (json_request self content),
              log (Sent (BaseClient.http_client self)
                        (json_request self content)) w)
         | Raise e => (Raise e, w)
         end.
Proof.
  intros Hno.
  assert (Hmap : snd (BaseClient._process_variables env variables) = []).
  { destruct variables as [d|]; [|reflexivity].
    rewrite process_variables_spec.
    cbv beta iota delta [snd].
    rewrite (no_file_no_paths env
               (VDict (BaseClient._convert_dict_to_json_serializable d))
               (has_file_convert_dict d Hno) "variables").
    reflexivity. }
  assert (Hexec : BaseClient.execute env self query variables
     = BaseClient._execute_json env self
         (payload_of query (fst (BaseClient._process_variables env variables)))).
  { rewrite execute_unfold, Hmap. reflexivity. }
  split; [exact Hmap|]. split; [exact Hexec|].
  intros w. rewrite Hexec. apply execute_json_unfold.
Qed.

Lemma no_files_plain_json_witness :
  snd (BaseClient._process_variables sample_env
         (Some [("id", VStr "7"); ("tags", VList [VInt 1; VNone])])) = []
  /\ BaseClient.execute sample_env sample_client "query Q { x }"
       (Some [("id", VStr "7"); ("tags", VList [VInt 1; VNone])])
     = BaseClient._execute_json sample_env sample_client
         (payload_of "query Q { x }"
            (fst (BaseClient._process_variables sample_env
                    (Some [("id", VStr "7"); ("tags", VList [VInt 1; VNone])]))))
  /\ forall w,
       BaseClient.execute sample_env sample_client "query Q { x }"
         (Some [("id", VStr "7"); ("tags", VList [VInt 1; VNone])]) w
       = match json_dumps sample_env
                 (payload_of "query Q { x }"
                    (fst (BaseClient._process_variables sample_env
                            (Some [("id", VStr "7");
                                   ("tags", VList [VInt 1; VNone])])))) with
         | Ok content =>
             (transport sample_env w (BaseClient.http_client sample_client)
                        (json_request sample_client content),
              log (Sent (BaseClient.http_client sample_client)
                        (json_request sample_client content)) w)
         | Raise e => (Raise e, w)
         end.
Proof.
  apply (no_files_plain_json sample_env sample_client "query Q { x }"
           (Some [("id", VStr "7"); ("tags", VList [VInt 1; VNone])])).
  reflexivity.
Defined.

(** ** The File Reference Map and the multipart indices *)

Lemma keys_record_file (h : Handle) (path : string) (m : BaseClient.FilesMap) :
  map fst (BaseClient.record_file h path m) = see (map fst m) h.
Proof.
  unfold see. induction m as [|[h' ps] rest IH]; simpl; auto.
  destruct (Nat.eqb h h') eqn:E; simpl; auto.
  rewrite IH. destruct (existsb (Nat.eqb h) (map fst rest)); reflexivity.
Qed.

Lemma keys_record_all (occ : list (Handle * string)) :
  forall m, map fst (record_all occ m) = fold_left see (map fst occ) (map fst m).
Proof.
  induction occ as [|[h p] rest IH]; intros m; simpl; auto.
  unfold record_all in *. simpl. rewrite IH. now rewrite keys_record_file.
Qed.

Lemma see_NoDup (seen : list Handle) (h : Handle) :
  NoDup seen -> NoDup (see seen h).
Proof.
  intros Hnd. unfold see.
  destruct (existsb (Nat.eqb h) seen) eqn:E; auto.
  apply NoDup_app; auto.
  - repeat constructor. simpl. tauto.
  - intros x Hx [Hh|[]]. subst x.
    assert (existsb (Nat.eqb h) seen = true).
    { apply existsb_exists. exists h. split; auto. apply Nat.eqb_refl. }
    congruence.
Qed.

Lemma fold_see_NoDup (l : list Handle) :
  forall seen, NoDup seen -> NoDup (fold_left see l seen).
Proof.
  induction l as [|h rest IH]; intros seen Hnd; simpl; auto.
  apply IH. now apply see_NoDup.
Qed.

Lemma paths_of_record_file (h h' : Handle) (path : string)
    (m : BaseClient.FilesMap) :
  paths_of h (BaseClient.record_file h' path m)
  = if Nat.eqb h' h then paths_of h m ++ [path] else paths_of h m.
Proof.
  induction m as [|[k ps] rest IH]; simpl.
  - rewrite (Nat.eqb_sym h h'). destruct (Nat.eqb h' h); reflexivity.
  - destruct (Nat.eqb h' k) eqn:Ek; simpl.
    + apply Nat.eqb_eq in Ek. subst k.
      rewrite (Nat.eqb_sym h h'). destruct (Nat.eqb h' h); reflexivity.
    + destruct (Nat.eqb h k) eqn:Eh; auto.
      apply Nat.eqb_eq in Eh. subst k. now rewrite Ek.
Qed.

Lemma paths_of_record_all (h : Handle) (occ : list (Handle * string)) :
  forall m, paths_of h (record_all occ m) = paths_of h m ++ paths_where h occ.
Proof.
  unfold paths_where.
  induction occ as [|[h' p] rest IH]; intros m; simpl.
  - now rewrite app_nil_r.
  - unfold record_all in *. simpl. rewrite IH, paths_of_record_file.
    destruct (Nat.eqb h' h); simpl; auto. now rewrite <- app_assoc.
Qed.

Lemma paths_where_In (h : Handle) (path : string)
    (occ : list (Handle * string)) :
  In (h, path) occ -> In path (paths_where h occ).
Proof.
  intros Hin. unfold paths_where. apply in_map_iff. exists (h, path).
  split; auto. apply filter_In. split; auto. simpl. apply Nat.eqb_refl.
Qed.

Lemma fold_see_keeps (l : list Handle) :
  forall seen h, In h seen -> In h (fold_left see l seen).
Proof.
  induction l as [|x rest IH]; intros seen h Hin; simpl; auto.
  apply IH. unfold see. destruct (existsb (Nat.eqb x) seen); auto.
  apply in_or_app. auto.
Qed.

Lemma fold_see_In (l : list Handle) :
  forall seen h, In h l -> In h (fold_left see l seen).
Proof.
  induction l as [|x rest IH]; intros seen h Hin; simpl; [destruct Hin|].
  destruct Hin as [Hx|Hin]; [|auto].
  subst x. apply fold_see_keeps. unfold see.
  destruct (existsb (Nat.eqb h) seen) eqn:E.
  - apply existsb_exists in E. destruct E as [y [Hy Hhy]].
    apply Nat.eqb_eq in Hhy. now subst y.
  - apply in_or_app. simpl. auto.
Qed.

Lemma paths_of_entry (h : Handle) (m : BaseClient.FilesMap) :
  In h (map fst m) -> In (h, paths_of h m) m.
Proof.
  induction m as [|[k ps] rest IH]; simpl; intros Hin; [tauto|].
  destruct (Nat.eqb h k) eqn:E.
  - apply Nat.eqb_eq in E. subst. auto.
  - destruct Hin as [Hk|Hin]; [|auto].
    subst k. now rewrite Nat.eqb_refl in E.
Qed.

Lemma nth_error_enumerate_str {A B} (f : A -> B) (l : list A) :
  forall start i,
    nth_error (BaseClient.enumerate_str f start l) i
    = option_map (fun a => (str_of_nat (start + i), f a)) (nth_error l i).
Proof.
  induction l as [|a rest IH]; intros start i; simpl.
  - destruct i; reflexivity.
  - destruct i; simpl.
    + now rewrite Nat.add_0_r.
    + rewrite IH. now rewrite Nat.add_succ_r.
Qed.

Lemma enumerate_str_keys {A B} (f : A -> B) (l : list A) :
  forall start,
    map fst (BaseClient.enumerate_str f start l)
    = map str_of_nat (seq start (List.length l)).
Proof.
  induction l as [|a rest IH]; intros start; simpl; auto.
  now rewrite IH.
Qed.

Lemma enumerate_str_values {A B} (f : A -> B) (l : list A) :
  forall start, map snd (BaseClient.enumerate_str f start l) = map f l.
Proof.
  induction l as [|a rest IH]; intros start; simpl; auto.
  now rewrite IH.
Qed.

(** C5.  When one file handle is bound at two argument paths of the
    serialized variables, the File Reference Map has a single entry for it,
    at some position i, listing every path the handle is bound at, both paths
    among them; the multipart [map] lists these paths under the string index
    of i and [files] carries the handle under the same index; the map holds
    the distinct handles in the order the walk first meets them, indexed
    "0", "1", ...; and [execute] sends this map through the multipart
    path: once the payload and the map are encoded, the request it sends is
    the multipart request whose [map] field is the encoding of that map and
    whose file parts are those indexed handles. *)
Theorem shared_file_one_entry (env : Env) (self : BaseClient.t)
    (query : string) (variables : Dict) (h : Handle) (p1 p2 : string) :
  let occurrences :=
    file_paths env "variables"
      (VDict (BaseClient._convert_dict_to_json_serializable variables)) in
  In (h, p1) occurrences ->
  In (h, p2) occurrences ->
  exists m i,
    snd (BaseClient._process_variables env (Some variables)) = m
    /\ nth_error m i = Some (h, paths_where h occurrences)
    /\ In p1 (paths_where h occurrences)
    /\ In p2 (paths_where h occurrences)
    /\ (forall j paths, nth_error m j = Some (h, paths) -> j = i)
    /\ nth_error (BaseClient.files_map_of m) i
       = Some (str_of_nat i, paths_where h occurrences)
    /\ nth_error (BaseClient.files_of m) i = Some (str_of_nat i, h)
    /\ map fst m = first_seen (map fst occurrences)
    /\ map fst (BaseClient.files_map_of m)
       = map str_of_nat (seq 0 (List.length m))
    /\ map fst (BaseClient.files_of m) = map str_of_nat (seq 0 (List.length m))
    /\ map snd (BaseClient.files_of m) = first_seen (map fst occurrences)
    /\ BaseClient.execute env self query (Some variables)
       = BaseClient._execute_multipart env self
           (payload_of query
              (fst (BaseClient._process_variables env (Some variables)))) m
    /\ (exists entries,
          BaseClient.files_map_value (BaseClient.files_map_of m) = VDict entries
          /\ nth_error entries i
             = Some (str_of_nat i,
                     VList (map VStr (paths_where h occurrences))))
    /\ (forall w operations map_,
          json_dumps env
            (payload_of query
               (fst (BaseClient._process_variables env (Some variables))))
          = Ok operations ->
          json_dumps env
            (BaseClient.files_map_value (BaseClient.files_map_of m))
          = Ok map_ ->
          BaseClient.execute env self query (Some variables) w
          = (transport env w (BaseClient.http_client self)
               (PostMultipart (BaseClient.url self)
                  [("operations", operations); ("map", map_)]
                  (BaseClient.files_of m)),
             log (Sent (BaseClient.http_client self)
                    (PostMultipart (BaseClient.url self)
                       [("operations", operations); ("map", map_)]
                       (BaseClient.files_of m))) w)).
Proof.
  intros occurrences H1 H2.
  set (m := record_all occurrences []).
  assert (Hm : snd (BaseClient._process_variables env (Some variables)) = m).
  { rewrite process_variables_spec. reflexivity. }
  assert (Hkeys : map fst m = first_seen (map fst occurrences)).
  { unfold m. rewrite keys_record_all. reflexivity. }
  assert (Hnd : NoDup (map fst m)).
  { rewrite Hkeys. apply fold_see_NoDup. constructor. }
  assert (Hpaths : paths_of h m = paths_where h occurrences).
  { unfold m. rewrite paths_of_record_all. reflexivity. }
  assert (Hin : In h (map fst m)).
  { rewrite Hkeys. apply fold_see_In.
    apply in_map_iff. exists (h, p1). auto. }
  pose proof (paths_of_entry h m Hin) as Hentry. rewrite Hpaths in Hentry.
  destruct (In_nth_error _ _ Hentry) as [i Hi].
  exists m, i.
  split; [exact Hm|]. split; [exact Hi|].
  split; [now apply paths_where_In|]. split; [now apply paths_where_In|].
  split.
  { intros j paths Hj.
    assert (Hi' : nth_error (map fst m) i = Some h)
      by (rewrite nth_error_map, Hi; reflexivity).
    assert (Hj' : nth_error (map fst m) j = Some h)
      by (rewrite nth_error_map, Hj; reflexivity).
    assert (Hlt : j < List.length (map fst m))
      by (apply nth_error_Some; congruence).
    apply (proj1 (NoDup_nth_error (map fst m)) Hnd j i Hlt). congruence. }
  split.
  { unfold BaseClient.files_map_of. rewrite nth_error_enumerate_str, Hi.
    reflexivity. }
  split.
  { unfold BaseClient.files_of. rewrite nth_error_enumerate_str, Hi.
    reflexivity. }
  split; [exact Hkeys|].
  split; [apply enumerate_str_keys|]. split; [apply enumerate_str_keys|].
  split.
  { unfold BaseClient.files_of. rewrite enumerate_str_values. exact Hkeys. }
  assert (Hexec : BaseClient.execute env self query (Some variables)
       = BaseClient._execute_multipart env self
           (payload_of query
              (fst (BaseClient._process_variables env (Some variables)))) m).
  { rewrite execute_unfold, Hm.
    destruct m as [|e rest]; [destruct Hin|reflexivity]. }
  split; [exact Hexec|]. split.
  { eexists. split; [reflexivity|].
    unfold BaseClient.files_map_of.
    rewrite nth_error_map, nth_error_enumerate_str, Hi. reflexivity. }
  intros w operations map_ Hops Hmap.
  rewrite Hexec, execute_multipart_unfold, Hops, Hmap. reflexivity.
Qed.

Lemma shared_file_one_entry_witness :
  In (5, "variables.a")
     (file_paths sample_env "variables"
        (VDict (BaseClient._convert_dict_to_json_serializable sample_upload)))
  /\ In (5, "variables.b.1")
        (file_paths sample_env "variables"
           (VDict (BaseClient._convert_dict_to_json_serializable sample_upload)))
  /\ exists m i,
       snd (BaseClient._process_variables sample_env (Some sample_upload)) = m
       /\ nth_error m i = Some (5, ["variables.a"; "variables.b.1"])
       /\ nth_error (BaseClient.files_map_of m) i
          = Some (str_of_nat i, ["variables.a"; "variables.b.1"])
       /\ map fst m = [5; 9]
       /\ exists operations map_,
            json_dumps sample_env
              (BaseClient.files_map_value (BaseClient.files_map_of m))
            = Ok map_
            /\ snd (BaseClient.execute sample_env sample_client "mutation U"
                      (Some sample_upload) empty_world)
               = log (Sent (BaseClient.http_client sample_client)
                        (PostMultipart (BaseClient.url sample_client)
                           [("operations", operations); ("map", map_)]
                           (BaseClient.files_of m))) empty_world.
Proof.
  split; [vm_compute; auto|]. split; [vm_compute; auto|].
  destruct (shared_file_one_entry sample_env sample_client "mutation U"
              sample_upload 5 "variables.a" "variables.b.1")
    as (m & i & Hm & Hi & _ & _ & _ & Hmap & _ & Hkeys & _ & _ & _ & _ & _
        & Hsend).
  - vm_compute. auto.
  - vm_compute. auto.
  - exists m, i. split; [exact Hm|]. split; [exact Hi|].
    split; [exact Hmap|]. split; [exact Hkeys|].
    assert (Hops : exists operations,
              json_dumps sample_env
                (payload_of "mutation U"
                   (fst (BaseClient._process_variables sample_env
                           (Some sample_upload)))) = Ok operations)
      by (vm_compute; eexists; reflexivity).
    destruct Hops as [operations Hops].
    assert (Hdump : exists map_,
              json_dumps sample_env
                (BaseClient.files_map_value (BaseClient.files_map_of m))
              = Ok map_)
      by (rewrite <- Hm; vm_compute; eexists; reflexivity).
    destruct Hdump as [map_ Hdump].
    exists operations, map_. split; [exact Hdump|].
    now rewrite (Hsend empty_world operations map_ Hops Hdump).
Defined.

(** ** The client generator *)

Section GeneratorProperties.

Context {S : Type} {AG : ArgumentsGenerator.Ops S} {SC : Scalars}.

Implicit Types (self g : @ClientGenerator.t S SC) (c : MethodCall).

Lemma add_import_keeps (import_ : option ast.ImportFrom) self :
  settings (ClientGenerator._add_import import_ self) = settings self
  /\ ClientGenerator._class_def (ClientGenerator._add_import import_ self)
     = ClientGenerator._class_def self.
Proof.
  unfold ClientGenerator._add_import.
  destruct import_ as [i|]; [|auto].
  match goal with |- context [if ?b then _ else _] => destruct b end; auto.
Qed.

Lemma add_call_body self c :
  ast.cd_body (ClientGenerator._class_def (add_call self c))
  = ast.cd_body (ClientGenerator._class_def self)
    ++ [ast.Def (through_method_hook (ClientGenerator.plugin_manager self)
                                     (method_for self c))].
Proof.
  unfold add_call, ClientGenerator.add_method, method_for.
  destruct (ArgumentsGenerator.generate
              (ClientGenerator.arguments_generator self)
              (variable_definitions (call_definition c)))
    as [[arguments arguments_dict] ag].
  match goal with
  | |- context [ClientGenerator._add_import ?i ?g] =>
      rewrite (proj2 (add_import_keeps i g))
  end.
  simpl. destruct (ClientGenerator._class_def self). reflexivity.
Qed.

Lemma add_call_settings self c : settings (add_call self c) = settings self.
Proof.
  unfold add_call, ClientGenerator.add_method.
  destruct (ArgumentsGenerator.generate
              (ClientGenerator.arguments_generator self)
              (variable_definitions (call_definition c)))
    as [[arguments arguments_dict] ag].
  match goal with
  | |- context [ClientGenerator._add_import ?i ?g] =>
      rewrite (proj1 (add_import_keeps i g))
  end.
  reflexivity.
Qed.

Lemma add_methods_settings (calls : list MethodCall) :
  forall self, settings (add_methods calls self) = settings self.
Proof.
  induction calls as [|c rest IH]; intros self; simpl; auto.
  unfold add_methods in *. simpl. rewrite IH. apply add_call_settings.
Qed.

Lemma add_methods_body (calls : list MethodCall) :
  forall self,
    ast.cd_body (ClientGenerator._class_def (add_methods calls self))
    = ast.cd_body (ClientGenerator._class_def self)
      ++ appended_methods self calls.
Proof.
  induction calls as [|c rest IH]; intros self; simpl.
  - now rewrite app_nil_r.
  - unfold add_methods in *. simpl. rewrite IH, add_call_body.
    now rewrite <- app_assoc.
Qed.

Lemma appended_methods_length (calls : list MethodCall) :
  forall self, List.length (appended_methods self calls) = List.length calls.
Proof.
  induction calls as [|c rest IH]; intros self; simpl; auto.
Qed.

Lemma appended_methods_nth (calls : list MethodCall) :
  forall self i c,
    nth_error calls i = Some c ->
    nth_error (appended_methods self calls) i
    = Some (ast.Def (through_method_hook
                       (ClientGenerator.plugin_manager self)
                       (method_for (add_methods (firstn i calls) self) c))).
Proof.
  induction calls as [|c0 rest IH]; intros self i c Hnth.
  - destruct i; discriminate.
  - destruct i as [|i]; simpl in *.
    + inversion Hnth. reflexivity.
    + rewrite (IH (add_call self c0) i c Hnth).
      pose proof (add_call_settings self c0) as Hs.
      unfold settings in Hs. inversion Hs as [[Hpm H1 H2 H3 H4 H5]].
      rewrite Hpm. reflexivity.
Qed.

Lemma method_for_name self c : ast.fd_name (method_for self c) = call_name c.
Proof.
  unfold method_for.
  destruct (ArgumentsGenerator.generate
              (ClientGenerator.arguments_generator self)
              (variable_definitions (call_definition c)))
    as [[arguments arguments_dict] ag].
  destruct (call_async c); reflexivity.
Qed.

(** C8.  After any sequence of [add_method] calls, whatever plugin manager is
    registered, the class body is what it was followed by one method per
    call: the method at the position of the i-th call is the one built for
    the i-th call (it bears that call's name when it is built), passed
    through the method hook. *)
Theorem methods_in_call_order self (calls : list MethodCall) (i : nat) c :
  nth_error calls i = Some c ->
  nth_error (ast.cd_body (ClientGenerator._class_def (add_methods calls self)))
            (List.length (ast.cd_body (ClientGenerator._class_def self)) + i)
  = Some (ast.Def (through_method_hook
                     (ClientGenerator.plugin_manager self)
                     (method_for (add_methods (firstn i calls) self) c)))
  /\ ast.fd_name (method_for (add_methods (firstn i calls) self) c)
     = call_name c
  /\ firstn (List.length (ast.cd_body (ClientGenerator._class_def self)))
            (ast.cd_body (ClientGenerator._class_def (add_methods calls self)))
     = ast.cd_body (ClientGenerator._class_def self)
  /\ List.length
       (ast.cd_body (ClientGenerator._class_def (add_methods calls self)))
     = List.length (ast.cd_body (ClientGenerator._class_def self))
       + List.length calls.
Proof.
  intros Hnth. rewrite add_methods_body.
  split; [|split; [|split]].
  - rewrite nth_error_app2 by lia.
    replace (List.length (ast.cd_body (ClientGenerator._class_def self)) + i
             - List.length (ast.cd_body (ClientGenerator._class_def self)))
      with i by lia.
    now apply appended_methods_nth.
  - apply method_for_name.
  - rewrite firstn_app, Nat.sub_diag, firstn_all. simpl. apply app_nil_r.
  - rewrite length_app, appended_methods_length. reflexivity.
Qed.

End GeneratorProperties.

Lemma methods_in_call_order_witness :
  nth_error
    (ast.cd_body (ClientGenerator._class_def
                    (add_methods sample_calls sample_generator)))
    (List.length (ast.cd_body (ClientGenerator._class_def sample_generator)) + 1)
  = Some (ast.Def (through_method_hook
                     (ClientGenerator.plugin_manager sample_generator)
                     (method_for
                        (add_methods (firstn 1 sample_calls) sample_generator)
                        second_call))).
Proof.
  exact (proj1 (methods_in_call_order sample_generator sample_calls 1
                  second_call eq_refl)).
Defined.

Section GeneratedMethods.

Context {SC : Scalars}.

Lemma construct_settings {S : Type} {AG : ArgumentsGenerator.Ops S}
    (cfg : @Config S SC) (pm : option PluginManager) :
  settings (construct cfg pm)
  = (pm, ("gql", "query", "variables", "response", "data")).
Proof.
  unfold construct, ClientGenerator.__init__.
  repeat rewrite (proj1 (add_import_keeps _ _)). reflexivity.
Qed.

Lemma filter_split_length {A} (p : A -> bool) (l : list A) :
  List.length (filter (fun a => negb (p a)) l) + List.length (filter p l)
  = List.length l.
Proof.
  induction l as [|a rest IH]; simpl; auto.
  destruct (p a); simpl; lia.
Qed.

(** C7.  For an operation definition with N variable definitions handed to
    [add_method], in any state a generation run can be in, the method it
    generates (and appends, after the method hook when a plugin manager is
    registered) has the receiver followed by exactly N parameters, is an
    async definition exactly when [async_] is set, and has the five
    statements: assign the query, assign the annotated variables mapping,
    assign the response from [self.execute] (awaited exactly when [async_]),
    assign the data from [self.get_data], return the parsed result. *)
Theorem generated_method_shape (cfg : @Config SpecArguments.t SC)
    (pm : option PluginManager) (earlier : list MethodCall) (c : MethodCall) :
  let self := add_methods earlier (construct cfg pm) in
  let method_def := method_for self c in
  let arguments_dict :=
    snd (fst (SpecArguments.generate
                (ClientGenerator.arguments_generator self)
                (variable_definitions (call_definition c)))) in
  let execute_call :=
    ast.Call (ast.Attribute (ast.Name "self") "execute") []
             [("query", ast.Name "query");
              ("variables", ast.Name "variables")] in
  ast.cd_body (ClientGenerator._class_def (add_call self c))
  = ast.cd_body (ClientGenerator._class_def self)
    ++ [ast.Def (through_method_hook pm method_def)]
  /\ ast.args (ast.fd_args method_def)
     = ast.mk_arg "self" None :: parameters_beyond_receiver method_def
  /\ List.length (parameters_beyond_receiver method_def)
     = List.length (variable_definitions (call_definition c))
  /\ ast.fd_is_async method_def = call_async c
  /\ ast.fd_body method_def
     = [ast.Assign
          [ast.Name "query"]
          (ast.Call (ast.Name "gql")
             [ast.Nodes
                (map (fun l => ast.Constant (l ++ String "010"%char ""))
                     (splitlines (call_operation_str c)))]
             [])
          1;
        ast.AnnAssign
          (ast.Name "variables")
          (ast.Subscript (ast.Name "dict")
                         (ast.Tuple [ast.Name "str"; ast.Name "object"]))
          (Some arguments_dict) 2;
        ast.Assign
          [ast.Name "response"]
          (if call_async c then ast.Await execute_call else execute_call)
          3;
        ast.Assign
          [ast.Name "data"]
          (ast.Call (ast.Attribute (ast.Name "self") "get_data")
                    [ast.Name "response"] [])
          1;
        ast.Return
          (ast.Call (ast.Attribute (ast.Name (call_return_type c)) "parse_obj")
                    [ast.Name "data"] [])].
Proof.
  intros self method_def arguments_dict execute_call.
  assert (Hs : settings self
               = (pm, ("gql", "query", "variables", "response", "data"))).
  { unfold self. rewrite add_methods_settings. apply construct_settings. }
  unfold settings in Hs. inversion Hs as [[Hpm H1 H2 H3 H4 H5]].
  split.
  { rewrite add_call_body, Hpm. reflexivity. }
  unfold method_def, arguments_dict, execute_call, method_for,
    parameters_beyond_receiver.
  simpl ArgumentsGenerator.generate.
  unfold SpecArguments.generate.
  repeat split.
  - destruct (call_async c); reflexivity.
  - destruct (call_async c); simpl;
      rewrite length_app, !length_map; apply filter_split_length.
  - destruct (call_async c); reflexivity.
  - destruct (call_async c); simpl;
      unfold ClientGenerator._generate_operation_str_assign,
        ClientGenerator._generate_variables_assign,
        ClientGenerator._generate_async_response_assign,
        ClientGenerator._generate_response_assign,
        ClientGenerator._generate_execute_call,
        ClientGenerator._generate_data_retrieval,
        ClientGenerator._generate_return_parsed_obj; simpl;
      rewrite H1, H2, H3, H4, H5; reflexivity.
Qed.

End GeneratedMethods.

(** ** Identity hooks *)

Section IdentityHooks.

Context {S : Type} {AG : ArgumentsGenerator.Ops S} {SC : Scalars}.

Implicit Types (g : @ClientGenerator.t S SC).

Local Abbreviation hooked := (with_plugin_manager (Some identity_plugins)).

Lemma add_import_plugin_manager (import_ : option ast.ImportFrom) g :
  ClientGenerator.plugin_manager (ClientGenerator._add_import import_ g)
  = ClientGenerator.plugin_manager g.
Proof.
  pose proof (proj1 (add_import_keeps import_ g)) as Hs.
  unfold settings in Hs. now inversion Hs.
Qed.

Lemma add_import_identity (import_ : option ast.ImportFrom) g :
  ClientGenerator.plugin_manager g = None ->
  ClientGenerator._add_import import_ (hooked g)
  = hooked (ClientGenerator._add_import import_ g).
Proof.
  intros Hpm. destruct g. simpl in Hpm. subst.
  destruct import_ as [i|]; [|reflexivity].
  unfold ClientGenerator._add_import, with_plugin_manager. simpl.
  destruct (ClientGenerator.import_is_kept i); reflexivity.
Qed.

Lemma fold_add_import_identity (imports : list ast.ImportFrom) :
  forall g,
    ClientGenerator.plugin_manager g = None ->
    fold_left (fun self import_ => ClientGenerator._add_import (Some import_) self)
              imports (hooked g)
    = hooked (fold_left
                (fun self import_ => ClientGenerator._add_import (Some import_) self)
                imports g)
    /\ ClientGenerator.plugin_manager
         (fold_left
            (fun self import_ => ClientGenerator._add_import (Some import_) self)
            imports g) = None.
Proof.
  induction imports as [|i rest IH]; intros g Hpm; cbn [fold_left]; auto.
  rewrite add_import_identity by exact Hpm.
  apply IH. now rewrite add_import_plugin_manager.
Qed.

Lemma add_scalar_imports_identity (custom_scalar_names : list string) :
  forall g,
    ClientGenerator.plugin_manager g = None ->
    ClientGenerator.add_scalar_imports custom_scalar_names (hooked g)
    = (hooked (fst (ClientGenerator.add_scalar_imports custom_scalar_names g)),
       snd (ClientGenerator.add_scalar_imports custom_scalar_names g))
    /\ ClientGenerator.plugin_manager
         (fst (ClientGenerator.add_scalar_imports custom_scalar_names g)) = None.
Proof.
  induction custom_scalar_names as [|n rest IH]; intros g Hpm;
    cbn [ClientGenerator.add_scalar_imports fst snd]; auto.
  replace (ClientGenerator.custom_scalars (hooked g))
    with (ClientGenerator.custom_scalars g) by reflexivity.
  destruct (ClientGenerator.lookup_scalar n (ClientGenerator.custom_scalars g))
    as [scalar_data|]; cbn [fst snd]; auto.
  destruct (fold_add_import_identity
              (generate_scalar_imports scalar_data) g Hpm) as [Hfold Hpm'].
  rewrite Hfold. now apply IH.
Qed.

Lemma add_call_identity g (c : MethodCall) :
  ClientGenerator.plugin_manager g = None ->
  add_call (hooked g) c = hooked (add_call g c).
Proof.
  intros Hpm. unfold add_call, ClientGenerator.add_method.
  replace (ClientGenerator.arguments_generator (hooked g))
    with (ClientGenerator.arguments_generator g) by reflexivity.
  destruct (ArgumentsGenerator.generate
              (ClientGenerator.arguments_generator g)
              (variable_definitions (call_definition c)))
    as [[arguments arguments_dict] ag].
  cbv zeta.
  rewrite <- add_import_identity.
  - f_equal. destruct g. simpl in Hpm. subst.
    destruct (call_async c); reflexivity.
  - destruct g. exact Hpm.
Qed.

Lemma add_call_plugin_manager g (c : MethodCall) :
  ClientGenerator.plugin_manager (add_call g c)
  = ClientGenerator.plugin_manager g.
Proof.
  pose proof (add_call_settings g c) as Hs.
  unfold settings in Hs. now inversion Hs.
Qed.

Lemma add_methods_identity (calls : list MethodCall) :
  forall g,
    ClientGenerator.plugin_manager g = None ->
    add_methods calls (hooked g) = hooked (add_methods calls g)
    /\ ClientGenerator.plugin_manager (add_methods calls g) = None.
Proof.
  induction calls as [|c rest IH]; intros g Hpm; [auto|].
  unfold add_methods in *. cbn [fold_left].
  rewrite add_call_identity by exact Hpm.
  apply IH. now rewrite add_call_plugin_manager.
Qed.

Lemma construct_identity (cfg : @Config S SC) :
  construct cfg (Some identity_plugins) = hooked (construct cfg None)
  /\ ClientGenerator.plugin_manager (construct cfg None) = None.
Proof.
  split.
  - unfold construct, ClientGenerator.__init__.
    match goal with
    | |- ClientGenerator._add_import _
           (ClientGenerator._add_import _
              (ClientGenerator._add_import _ ?g0)) = _ =>
        change g0 with
          (hooked
             (ClientGenerator.mk (cfg_name cfg) (cfg_enums_module_name cfg)
                (cfg_input_types_module_name cfg) None
                (match cfg_custom_scalars cfg with
                 | Some d => d
                 | None => []
                 end)
                (cfg_arguments_generator cfg) []
                (codegen.generate_class_def (cfg_name cfg)
                                            [cfg_base_client cfg])
                "gql" "query" "variables" "response" "data"))
    end.
    rewrite add_import_identity by reflexivity.
    rewrite add_import_identity
      by (rewrite add_import_plugin_manager; reflexivity).
    rewrite add_import_identity
      by (rewrite !add_import_plugin_manager; reflexivity).
    reflexivity.
  - exact (f_equal fst (construct_settings cfg None)).
Qed.

Lemma generate_identity g :
  ClientGenerator.plugin_manager g = None ->
  snd (ClientGenerator.generate (hooked g)) = snd (ClientGenerator.generate g).
Proof.
  intros Hpm. unfold ClientGenerator.generate.
  replace (ClientGenerator.arguments_generator (hooked g))
    with (ClientGenerator.arguments_generator g) by reflexivity.
  replace (ClientGenerator.input_types_module_name (hooked g))
    with (ClientGenerator.input_types_module_name g) by reflexivity.
  rewrite add_import_identity by exact Hpm.
  set (g1 := ClientGenerator._add_import _ g).
  assert (Hpm1 : ClientGenerator.plugin_manager g1 = None)
    by (unfold g1; now rewrite add_import_plugin_manager).
  replace (ClientGenerator.arguments_generator (hooked g1))
    with (ClientGenerator.arguments_generator g1) by reflexivity.
  replace (ClientGenerator.enums_module_name (hooked g1))
    with (ClientGenerator.enums_module_name g1) by reflexivity.
  rewrite add_import_identity by exact Hpm1.
  set (g2 := ClientGenerator._add_import _ g1).
  assert (Hpm2 : ClientGenerator.plugin_manager g2 = None)
    by (unfold g2; now rewrite add_import_plugin_manager).
  replace (ClientGenerator.arguments_generator (hooked g2))
    with (ClientGenerator.arguments_generator g2) by reflexivity.
  destruct (add_scalar_imports_identity
              (ArgumentsGenerator.get_used_custom_scalars
                 (ClientGenerator.arguments_generator g2)) g2 Hpm2)
    as [Hscal Hpm3].
  rewrite Hscal.
  destruct (ClientGenerator.add_scalar_imports
              (ArgumentsGenerator.get_used_custom_scalars
                 (ClientGenerator.arguments_generator g2)) g2)
    as [g3 [err|]]; simpl; [reflexivity|].
  simpl in Hpm3. destruct g3. simpl in Hpm3. subst.
  unfold with_plugin_manager. simpl.
  destruct _class_def as [n bases body lineno]. simpl.
  destruct body; reflexivity.
Qed.

(** C9.  A generation run with a plugin manager whose five hooks are all the
    identity produces the module (or fails with the error) that the same run
    produces with no plugin manager. *)
Theorem identity_hooks_same_module (cfg : @Config S SC)
    (calls : list MethodCall) :
  run cfg (Some identity_plugins) calls = run cfg None calls.
Proof.
  unfold run.
  destruct (construct_identity cfg) as [Hc Hpm].
  rewrite Hc.
  destruct (add_methods_identity calls (construct cfg None) Hpm) as [Hm Hpm'].
  rewrite Hm. now apply generate_identity.
Qed.

End IdentityHooks.

(** ** Evaluated examples *)

Example splitlines_example :
  splitlines ("a" ++ String "010"%char
                (String "010"%char
                   ("b" ++ String "013"%char (String "010"%char "c"))))
  = ["a"; ""; "b"; "c"].
Proof. reflexivity. Qed.

Example no_mode_handle_extracted :
  BaseClient._process_variables sample_env (Some [("f", VFile 1)])
  = (VDict [("f", VNone)], [(1, ["variables.f"])]).
Proof. reflexivity. Qed.

Example text_mode_handle_kept :
  BaseClient._process_variables sample_env (Some [("f", VFile 2)])
  = (VDict [("f", VFile 2)], []).
Proof. reflexivity. Qed.

Example upload_goes_multipart :
  exists operations map_,
    snd (BaseClient.execute sample_env sample_client "mutation U"
           (Some sample_upload) empty_world)
    = mkWorld 1
        [Sent 0 (PostMultipart "https://example.test/graphql"
                   [("operations", operations); ("map", map_)]
                   [("0", 5); ("1", 9)])].
Proof. eexists. eexists. vm_compute. reflexivity. Qed.

Example hooked_methods_keep_call_order :
  map (fun s => match s with ast.Def f => ast.fd_name f | _ => "" end)
      (ast.cd_body (ClientGenerator._class_def
                      (add_methods sample_calls sample_generator)))
  = ["get_user_hooked"; "list_users_hooked"; "create_user_hooked"].
Proof. vm_compute. reflexivity. Qed.

Example identity_hooks_example :
  run sample_config (Some identity_plugins) sample_calls
  = run sample_config None sample_calls.
Proof. vm_compute. reflexivity. Qed.

(** * Further properties of base_client.py *)

(** X1.  A success response whose body cannot be decoded, decodes to
    something that is not an object, or decodes to an object without a
    [data] key makes [get_data] fail with the invalid-response error carrying
    the response, after the one attempt to decode the body. *)
Theorem get_data_invalid_response (self : BaseClient.t) (response : Response)
    (w : World) :
  is_success response = true ->
  match json_body response with
  | Some (VDict d) => dict_get "data" d = None
  | _ => True
  end ->
  BaseClient.get_data self response w
  = (Raise (GraphQlClientInvalidResponseError response),
     log (JsonDecoded response) w).
Proof.
  intros Hok Hbody. unfold BaseClient.get_data. rewrite Hok. simpl negb.
  cbv iota. unfold bind, BaseClient.response_json.
  destruct (json_body response) as [v|]; [|reflexivity].
  destruct v; try reflexivity.
  rewrite Hbody. reflexivity.
Qed.

(** A body that decodes to a JSON array. *)
Lemma get_data_invalid_response_witness :
  BaseClient.get_data sample_client
    (mkResponse 200 (Some (VList [VInt 1; VInt 2]))) empty_world
  = (Raise (GraphQlClientInvalidResponseError
              (mkResponse 200 (Some (VList [VInt 1; VInt 2])))),
     log (JsonDecoded (mkResponse 200 (Some (VList [VInt 1; VInt 2]))))
         empty_world).
Proof.
  apply (get_data_invalid_response sample_client
           (mkResponse 200 (Some (VList [VInt 1; VInt 2]))) empty_world).
  - reflexivity.
  - exact I.
Defined.

(** X2.  A success response whose body is an object with a [data] key and
    whose [errors] entry is absent or falsy (null, an empty array, ...) makes
    [get_data] return the [data] value as it is, whatever it is. *)
Theorem get_data_returns_data (self : BaseClient.t) (response : Response)
    (w : World) (body : Dict) (data : Value) :
  is_success response = true ->
  json_body response = Some (VDict body) ->
  dict_get "data" body = Some data ->
  match dict_get "errors" body with
  | Some errors => truthy errors = false
  | None => True
  end ->
  BaseClient.get_data self response w
  = (Ok data, log (JsonDecoded response) w).
Proof.
  intros Hok Hbody Hdata Herrors.
  unfold BaseClient.get_data. rewrite Hok. simpl negb. cbv iota.
  unfold bind, BaseClient.response_json. rewrite Hbody, Hdata.
  destruct (dict_get "errors" body) as [errors|].
  - rewrite Herrors. reflexivity.
  - reflexivity.
Qed.

(** Null data beside an empty [errors] array. *)
Lemma get_data_returns_data_witness :
  BaseClient.get_data sample_client
    (mkResponse 201 (Some (VDict [("errors", VList []); ("data", VNone)])))
    empty_world
  = (Ok VNone,
     log (JsonDecoded
            (mkResponse 201
               (Some (VDict [("errors", VList []); ("data", VNone)]))))
         empty_world).
Proof.
  apply (get_data_returns_data sample_client
           (mkResponse 201 (Some (VDict [("errors", VList []); ("data", VNone)])))
           empty_world [("errors", VList []); ("data", VNone)] VNone);
    reflexivity.
Defined.

(** X3.  Whatever the response, [get_data] decodes the body at most once and
    touches nothing else: the world afterwards is the world before, or the
    world before with the one decoding logged; and it returns a value only
    for a success status. *)
Theorem get_data_effects (self : BaseClient.t) (response : Response)
    (w : World) :
  (snd (BaseClient.get_data self response w) = w
   \/ snd (BaseClient.get_data self response w) = log (JsonDecoded response) w)
  /\ (forall data, fst (BaseClient.get_data self response w) = Ok data ->
                   is_success response = true
                   /\ exists body, json_body response = Some (VDict body)
                                   /\ dict_get "data" body = Some data).
Proof.
  unfold BaseClient.get_data.
  destruct (is_success response) eqn:Hok; simpl negb; cbv iota.
  - unfold bind, BaseClient.response_json.
    destruct (json_body response) as [v|]; simpl.
    + destruct v; simpl; try (split; [now right|intros data H; discriminate]).
      destruct (dict_get "data" entries) as [data0|] eqn:Hdata; simpl;
        [|split; [now right|intros data H; discriminate]].
      match goal with |- context [if ?b then _ else _] => destruct b end; simpl.
      * split; [now right|intros data H; discriminate].
      * split; [now right|]. intros data H. inversion H. subst.
        split; [reflexivity|]. exists entries. auto.
    + split; [now right|intros data H; discriminate].
  - simpl. split; [now left|intros data H; discriminate].
Qed.

Lemma all_unset_converts_to_empty (d : Dict) :
  forallb (fun kv => is_unset (snd kv)) d = true ->
  BaseClient._convert_dict_to_json_serializable d = [].
Proof.
  unfold BaseClient._convert_dict_to_json_serializable.
  assert (Hgen : forall acc,
    forallb (fun kv => is_unset (snd kv)) d = true ->
    fold_left
      (fun acc kv =>
         if is_unset (snd kv) then acc
         else dict_set (fst kv) (BaseClient._convert_value (snd kv)) acc)
      d acc = acc).
  { induction d as [|[k v] rest IH]; intros acc Hall; simpl in *; auto.
    apply andb_true_iff in Hall. destruct Hall as [Hv Hrest].
    rewrite Hv. now apply IH. }
  apply Hgen.
Qed.

(** X4.  With no variables, an empty mapping, or every variable left UNSET,
    [execute] takes the plain JSON path with an empty [variables] object in
    the payload. *)
Theorem execute_without_variables (env : Env) (self : BaseClient.t)
    (query : string) (variables : option Dict) :
  all_unset variables = true ->
  BaseClient._process_variables env variables = (VDict [], [])
  /\ BaseClient.execute env self query variables
     = BaseClient._execute_json env self (payload_of query (VDict [])).
Proof.
  intros Hall.
  assert (Hproc : BaseClient._process_variables env variables = (VDict [], [])).
  { destruct variables as [d|]; [|reflexivity].
    rewrite process_variables_spec.
    rewrite (all_unset_converts_to_empty d Hall). reflexivity. }
  split; [exact Hproc|].
  rewrite execute_unfold, Hproc. reflexivity.
Qed.

Lemma execute_without_variables_witness :
  BaseClient._process_variables sample_env
    (Some [("first", VUnset); ("after", VUnset)]) = (VDict [], [])
  /\ BaseClient.execute sample_env sample_client "query Q { x }"
       (Some [("first", VUnset); ("after", VUnset)])
     = BaseClient._execute_json sample_env sample_client
         (payload_of "query Q { x }" (VDict [])).
Proof.
  apply (execute_without_variables sample_env sample_client "query Q { x }"
           (Some [("first", VUnset); ("after", VUnset)])).
  reflexivity.
Defined.

(** X5.  What a call of [execute] does to the world: it raises, and leaves
    the world untouched, exactly when the encoder refuses the payload or, on
    the multipart path, the file map; otherwise it sends exactly one request,
    through the client's own transport handle and to the client's URL, and
    returns what the transport answers: the plain JSON request when no file
    was extracted, the multipart request with the fields [operations] and
    [map] and the indexed file parts when one was.  It never opens or closes
    a transport. *)
Theorem execute_sends_at_most_one_request (env : Env) (self : BaseClient.t)
    (query : string) (variables : option Dict) (w : World) :
  let processed := fst (BaseClient._process_variables env variables) in
  let m := snd (BaseClient._process_variables env variables) in
  let send := fun req : Request =>
    (transport env w (BaseClient.http_client self) req,
     log (Sent (BaseClient.http_client self) req) w) in
  BaseClient.execute env self query variables w
  = match json_dumps env (payload_of query processed) with
    | Raise e => (Raise e, w)
    | Ok encoded =>
        match m with
        | [] =>
            send (PostJson (BaseClient.url self) encoded
                           [("Content-Type", "application/json")])
        | _ :: _ =>
            match json_dumps env
                    (BaseClient.files_map_value (BaseClient.files_map_of m)) with
            | Raise e => (Raise e, w)
            | Ok map_ =>
                send (PostMultipart (BaseClient.url self)
                        [("operations", encoded); ("map", map_)]
                        (BaseClient.files_of m))
            end
        end
    end.
Proof.
  intros processed m send. rewrite execute_unfold. fold m. fold processed.
  destruct m as [|entry rest] eqn:Hm.
  - rewrite execute_json_unfold.
    destruct (json_dumps env (payload_of query processed)); reflexivity.
  - rewrite execute_multipart_unfold.
    destruct (json_dumps env (payload_of query processed)); reflexivity.
Qed.

(** ** What extraction leaves behind *)

Lemma file_paths_dict_app (env : Env) (path : string) (d1 d2 : Dict) :
  file_paths env path (VDict (d1 ++ d2))
  = file_paths env path (VDict d1) ++ file_paths env path (VDict d2).
Proof.
  simpl. induction d1 as [|[k v] rest IH]; simpl; auto.
  rewrite IH. now rewrite app_assoc.
Qed.

Lemma file_paths_dict_nil (env : Env) (path : string) (d : Dict) :
  Forall (fun kv => forall p, file_paths env p (snd kv) = []) d ->
  file_paths env path (VDict d) = [].
Proof.
  intros Hall. simpl. induction Hall as [|[k v] rest Hv Hrest IH]; auto.
  simpl in Hv. rewrite Hv. exact IH.
Qed.

Lemma dict_set_Forall (P : string * Value -> Prop) (key : string)
    (value : Value) (d : Dict) :
  (forall k, P (k, value)) -> Forall P d -> Forall P (dict_set key value d).
Proof.
  intros Hv Hd. induction Hd as [|[k v] rest Hk Hrest IH]; simpl.
  - constructor; auto.
  - destruct (String.eqb key k); constructor; auto.
Qed.

Lemma nulled_has_no_binary_file (env : Env) (v : Value) :
  forall path, file_paths env path (nulled env v) = [].
Proof.
  induction v using Value_nested_ind; intros path; try reflexivity.
  - (* list *)
    simpl. generalize 0.
    induction H as [|x rest Hx Hrest IH]; intros index; simpl; auto.
    rewrite Hx. simpl. apply IH.
  - (* dict *)
    apply file_paths_dict_nil.
    assert (Hgen : forall acc,
      Forall (fun kv => forall p, file_paths env p (snd kv) = []) acc ->
      Forall (fun kv => forall p, file_paths env p (snd kv) = [])
        ((fix each (entries : Dict) (acc : Dict) {struct entries} : Dict :=
            match entries with
            | [] => acc
            | (key, value) :: rest =>
                each rest (dict_set key (nulled env value) acc)
            end) entries acc)).
    { induction H as [|[k x] rest Hx Hrest IH]; intros acc Hacc; auto.
      apply IH. apply dict_set_Forall; auto. }
    apply Hgen. constructor.
  - (* file *)
    simpl. destruct (BaseClient.is_binary env h) eqn:Hb; simpl; auto.
    now rewrite Hb.
Qed.

(** X6.  The payload that file extraction returns holds no binary file
    handle any more: no path of it binds one, whatever the structure, the
    path and the map the walk started from; so walking it again records
    nothing. *)
Theorem extraction_leaves_no_binary_file (env : Env) (obj : Value)
    (path : string) (m : BaseClient.FilesMap) :
  (forall p,
     file_paths env p (fst (BaseClient.separate_files env path obj m)) = [])
  /\ (forall path' m',
        snd (BaseClient.separate_files env path'
               (fst (BaseClient.separate_files env path obj m)) m') = m').
Proof.
  rewrite (separate_files_spec env obj path m). cbn [fst]. split.
  - apply nulled_has_no_binary_file.
  - intros path' m'. rewrite separate_files_spec. cbn [snd].
    now rewrite nulled_has_no_binary_file.
Qed.

Lemma distinct_NoDup (l : list string) : distinct l = true -> NoDup l.
Proof.
  induction l as [|x rest IH]; simpl; intros Hd; constructor.
  - apply andb_true_iff in Hd. destruct Hd as [Hx _].
    intros Hin. apply negb_true_iff in Hx.
    assert (existsb (String.eqb x) rest = true).
    { apply existsb_exists. exists x. split; auto. apply String.eqb_refl. }
    congruence.
  - apply IH. apply andb_true_iff in Hd. tauto.
Qed.

Lemma nulled_without_binary_file (env : Env) (v : Value) :
  well_formed v = true ->
  forall path, file_paths env path v = [] -> nulled env v = v.
Proof.
  induction v using Value_nested_ind; intros Hwf path Hnone; try reflexivity.
  - (* list *)
    simpl in Hwf, Hnone. simpl. f_equal. revert Hnone. generalize 0.
    induction H as [|x rest Hx Hrest IH]; intros index Hnone; auto.
    simpl in Hwf. apply andb_true_iff in Hwf. destruct Hwf as [Hwx Hwrest].
    apply app_eq_nil in Hnone. destruct Hnone as [Hnx Hnrest].
    simpl. rewrite (Hx Hwx _ Hnx). f_equal. exact (IH Hwrest _ Hnrest).
  - (* dict *)
    simpl in Hwf. apply andb_true_iff in Hwf. destruct Hwf as [Hkeys Hvals].
    rewrite nulled_dict_spec by (apply distinct_NoDup; exact Hkeys).
    f_equal. clear Hkeys. simpl in Hnone.
    induction H as [|[k x] rest Hx Hrest IH]; auto.
    simpl in Hvals. apply andb_true_iff in Hvals. destruct Hvals as [Hwx Hwrest].
    apply app_eq_nil in Hnone. destruct Hnone as [Hnx Hnrest].
    simpl in Hx. simpl. rewrite (Hx Hwx _ Hnx). f_equal.
    exact (IH Hwrest Hnrest).
  - (* file *)
    simpl in Hnone. simpl.
    destruct (BaseClient.is_binary env h); [discriminate|reflexivity].
Qed.

(** X7.  A structure in which no binary file handle is bound comes back from
    file extraction exactly as it went in, text-mode handles included, and
    the map is left as it was. *)
Theorem extraction_without_files_is_identity (env : Env) (obj : Value)
    (path : string) (m : BaseClient.FilesMap) :
  well_formed obj = true ->
  file_paths env path obj = [] ->
  BaseClient.separate_files env path obj m = (obj, m).
Proof.
  intros Hwf Hnone. rewrite separate_files_spec, Hnone.
  rewrite (nulled_without_binary_file env obj Hwf path Hnone). reflexivity.
Qed.

Lemma extraction_without_files_is_identity_witness :
  BaseClient.separate_files sample_env "variables"
    (VDict [("log", VFile 2); ("tags", VList [VStr "a"; VNone])]) []
  = (VDict [("log", VFile 2); ("tags", VList [VStr "a"; VNone])], []).
Proof.
  apply (extraction_without_files_is_identity sample_env
           (VDict [("log", VFile 2); ("tags", VList [VStr "a"; VNone])])
           "variables" []);
    reflexivity.
Defined.

(** X8.  UNSET is dropped at the top level only: a list bound to a variable
    keeps its length through normalization, and an element that is UNSET is
    still UNSET in the serialized variables. *)
Theorem nested_unset_is_kept (env : Env) (variables : Dict) (key : string)
    (items : list Value) :
  NoDup (dict_keys variables) ->
  dict_get key variables = Some (VList items) ->
  exists processed items',
    fst (BaseClient._process_variables env (Some variables)) = VDict processed
    /\ dict_get key processed = Some (VList items')
    /\ List.length items' = List.length items
    /\ forall i, nth_error items i = Some VUnset ->
                 nth_error items' i = Some VUnset.
Proof.
  intros Hnd Hget.
  pose proof (convert_dict_spec variables Hnd) as Hconv.
  assert (Hnd' : NoDup (dict_keys
                   (BaseClient._convert_dict_to_json_serializable variables))).
  { rewrite Hconv, dict_keys_map_values. now apply dict_keys_filter_NoDup. }
  exists (map (fun kv => (fst kv, nulled env (snd kv)))
              (BaseClient._convert_dict_to_json_serializable variables)).
  exists (map (nulled env) (map BaseClient._convert_value items)).
  split; [|split; [|split]].
  - rewrite process_variables_spec. simpl fst. now apply nulled_dict_spec.
  - rewrite dict_get_map_values, Hconv, dict_get_map_values,
      dict_get_filter_set, Hget by exact Hnd.
    reflexivity.
  - now rewrite !length_map.
  - intros i Hi. rewrite !nth_error_map, Hi. reflexivity.
Qed.

Lemma nested_unset_is_kept_witness :
  exists processed items',
    fst (BaseClient._process_variables sample_env
           (Some [("ids", VList [VInt 1; VUnset]); ("skip", VUnset)]))
    = VDict processed
    /\ dict_get "ids" processed = Some (VList items')
    /\ List.length items' = List.length [VInt 1; VUnset]
    /\ forall i, nth_error [VInt 1; VUnset] i = Some VUnset ->
                 nth_error items' i = Some VUnset.
Proof.
  apply (nested_unset_is_kept sample_env
           [("ids", VList [VInt 1; VUnset]); ("skip", VUnset)] "ids"
           [VInt 1; VUnset]).
  - unfold dict_keys. simpl. repeat constructor; simpl; intuition discriminate.
  - reflexivity.
Defined.

(** ** The parts of a multipart request *)

Lemma str_of_nat_injective (n n' : nat) :
  str_of_nat n = str_of_nat n' -> n = n'.
Proof.
  unfold str_of_nat. intros Heq.
  apply (f_equal NilEmpty.uint_of_string) in Heq.
  rewrite !NilEmpty.usu in Heq. inversion Heq as [Hu].
  apply (f_equal Nat.of_uint) in Hu.
  now rewrite !DecimalNat.Unsigned.of_to in Hu.
Qed.

Lemma NoDup_map_injective {A B} (f : A -> B) (l : list A) :
  (forall a b, f a = f b -> a = b) -> NoDup l -> NoDup (map f l).
Proof.
  intros Hinj Hnd. induction Hnd as [|x rest Hx Hrest IH]; simpl; constructor.
  - intros Hin. apply in_map_iff in Hin. destruct Hin as [y [Hy Hin]].
    apply Hinj in Hy. now subst.
  - exact IH.
Qed.

(** X9.  In the multipart request [_execute_multipart] sends, every file
    part has its own name: once the payload and the map are encoded, the one
    request sent carries the fields [operations] and [map] and one file part
    per entry of the File Reference Map, the parts are the handles of the map
    in order, their names are pairwise distinct, and the encoded map has an
    entry under the same name, in the same order, for every part, listing
    that entry's paths. *)
Theorem file_parts_have_distinct_names (env : Env) (self : BaseClient.t)
    (payload : Value) (m : BaseClient.FilesMap) (w : World)
    (operations map_ : string) :
  json_dumps env payload = Ok operations ->
  json_dumps env (BaseClient.files_map_value (BaseClient.files_map_of m))
  = Ok map_ ->
  exists files entries,
    BaseClient._execute_multipart env self payload m w
    = (transport env w (BaseClient.http_client self)
         (PostMultipart (BaseClient.url self)
            [("operations", operations); ("map", map_)] files),
       log (Sent (BaseClient.http_client self)
              (PostMultipart (BaseClient.url self)
                 [("operations", operations); ("map", map_)] files)) w)
    /\ json_dumps env (VDict entries) = Ok map_
    /\ NoDup (map fst files)
    /\ map snd files = map fst m
    /\ map fst entries = map fst files
    /\ map snd entries = map (fun e => VList (map VStr (snd e))) m.
Proof.
  intros Hops Hmap.
  exists (BaseClient.files_of m).
  exists (map (fun kv => (fst kv, VList (map VStr (snd kv))))
              (BaseClient.files_map_of m)).
  split; [|split; [|split; [|split; [|split]]]].
  - rewrite execute_multipart_unfold, Hops, Hmap. reflexivity.
  - exact Hmap.
  - unfold BaseClient.files_of. rewrite enumerate_str_keys.
    apply NoDup_map_injective; [apply str_of_nat_injective|apply seq_NoDup].
  - unfold BaseClient.files_of. apply enumerate_str_values.
  - rewrite map_map. cbn [fst].
    unfold BaseClient.files_of, BaseClient.files_map_of.
    now rewrite !enumerate_str_keys.
  - rewrite map_map. cbn [snd]. unfold BaseClient.files_map_of.
    transitivity (map (fun paths => VList (map VStr paths))
                      (map snd (BaseClient.enumerate_str snd 0 m))).
    + now rewrite map_map.
    + rewrite enumerate_str_values. now rewrite map_map.
Qed.

Lemma file_parts_have_distinct_names_witness :
  let payload := VDict [("query", VStr "mutation U")] in
  let m := [(5, ["variables.a"; "variables.b.1"]); (9, ["variables.b.0"])] in
  exists operations map_ files entries,
    json_dumps sample_env payload = Ok operations
    /\ json_dumps sample_env
         (BaseClient.files_map_value (BaseClient.files_map_of m)) = Ok map_
    /\ BaseClient._execute_multipart sample_env sample_client payload m
         empty_world
       = (transport sample_env empty_world
            (BaseClient.http_client sample_client)
            (PostMultipart (BaseClient.url sample_client)
               [("operations", operations); ("map", map_)] files),
          log (Sent (BaseClient.http_client sample_client)
                 (PostMultipart (BaseClient.url sample_client)
                    [("operations", operations); ("map", map_)] files))
              empty_world)
    /\ json_dumps sample_env (VDict entries) = Ok map_
    /\ NoDup (map fst files)
    /\ map snd files = map fst m
    /\ map fst entries = map fst files
    /\ map snd entries = map (fun e => VList (map VStr (snd e))) m.
Proof.
  intros payload m.
  assert (Hops : exists operations, json_dumps sample_env payload = Ok operations)
    by (vm_compute; eexists; reflexivity).
  destruct Hops as [operations Hops].
  assert (Hmap : exists map_,
            json_dumps sample_env
              (BaseClient.files_map_value (BaseClient.files_map_of m)) = Ok map_)
    by (vm_compute; eexists; reflexivity).
  destruct Hmap as [map_ Hmap].
  destruct (file_parts_have_distinct_names sample_env sample_client payload m
              empty_world operations map_ Hops Hmap)
    as (files & entries & Hrest).
  exists operations, map_, files, entries.
  exact (conj Hops (conj Hmap Hrest)).
Defined.

(** ** Construction and scoped use *)

(** X10.  A scope around a client changes nothing in what its body does:
    the scope returns what the body returns and raises what the body raises,
    and the world after it is the world the body left with the closing of
    the client's transport logged last. *)
Theorem scope_returns_body_outcome (A : Type) (self : BaseClient.t)
    (body : BaseClient.t -> M A) (w : World) :
  fst (BaseClient.with_ self body w) = fst (body self w)
  /\ snd (BaseClient.with_ self body w)
     = log (Closed (BaseClient.http_client self)) (snd (body self w)).
Proof.
  unfold BaseClient.with_, BaseClient.__enter__, ret.
  destruct (body self w) as [[a|e] w1]; simpl; auto.
Qed.

(** * Further properties of client.py *)

Section GeneratorRun.

Context {S : Type} {AG : ArgumentsGenerator.Ops S} {SC : Scalars}.

Implicit Types (g : @ClientGenerator.t S SC) (c : MethodCall).

Ltac generator_fields :=
  unfold ClientGenerator.set_imports, ClientGenerator.set_class_def,
    ClientGenerator.set_arguments_generator;
  cbn [ClientGenerator.name ClientGenerator.enums_module_name
       ClientGenerator.input_types_module_name ClientGenerator.plugin_manager
       ClientGenerator.custom_scalars ClientGenerator.arguments_generator
       ClientGenerator._imports ClientGenerator._class_def
       ClientGenerator._gql_func_name ClientGenerator._operation_str_variable
       ClientGenerator._variables_dict_variable
       ClientGenerator._response_variable ClientGenerator._data_variable].

Lemma kept_imports_app (pm : option PluginManager)
    (l1 l2 : list ast.ImportFrom) :
  kept_imports pm (l1 ++ l2) = kept_imports pm l1 ++ kept_imports pm l2.
Proof. unfold kept_imports. now rewrite map_app, filter_app. Qed.

Lemma kept_imports_valid (pm : option PluginManager)
    (l : list ast.ImportFrom) :
  Forall (fun i => ClientGenerator.import_is_kept i = true) (kept_imports pm l).
Proof.
  unfold kept_imports. apply Forall_forall. intros i Hin.
  apply filter_In in Hin. tauto.
Qed.

(** [_add_import] only ever extends the list of imports, by the import it is
    given when that import survives the hook and the check. *)
Lemma add_import_spec (import_ : option ast.ImportFrom) g :
  ClientGenerator._add_import import_ g
  = ClientGenerator.set_imports
      (ClientGenerator._imports g
       ++ kept_imports (ClientGenerator.plugin_manager g) (option_list import_))
      g.
Proof.
  destruct g. unfold ClientGenerator._add_import, kept_imports,
    through_import_hook.
  destruct import_ as [i|]; simpl.
  - destruct plugin_manager as [pm|]; simpl;
      match goal with |- context [ClientGenerator.import_is_kept ?x] =>
        destruct (ClientGenerator.import_is_kept x) end; simpl;
      unfold ClientGenerator.set_imports; simpl; now rewrite ?app_nil_r.
  - unfold ClientGenerator.set_imports. simpl. now rewrite app_nil_r.
Qed.

Lemma fold_add_import_spec (imports : list ast.ImportFrom) :
  forall g,
    fold_left (fun self import_ => ClientGenerator._add_import (Some import_) self)
              imports g
    = ClientGenerator.set_imports
        (ClientGenerator._imports g
         ++ kept_imports (ClientGenerator.plugin_manager g) imports)
        g.
Proof.
  induction imports as [|i rest IH]; intros g; cbn [fold_left].
  - destruct g. unfold ClientGenerator.set_imports, kept_imports. simpl.
    now rewrite app_nil_r.
  - rewrite IH, add_import_spec. destruct g.
    unfold ClientGenerator.set_imports. simpl.
    change (i :: rest) with ([i] ++ rest).
    now rewrite kept_imports_app, app_assoc.
Qed.

Lemma add_scalar_imports_spec (d : list (string * ScalarData))
    (names : list string) :
  forall g,
    ClientGenerator.custom_scalars g = d ->
    match find (fun n => match ClientGenerator.lookup_scalar n d with
                         | Some _ => false
                         | None => true
                         end) names with
    | None =>
        ClientGenerator.add_scalar_imports names g
        = (ClientGenerator.set_imports
             (ClientGenerator._imports g
              ++ kept_imports (ClientGenerator.plugin_manager g)
                   (flat_map
                      (fun n => match ClientGenerator.lookup_scalar n d with
                                | Some scalar_data =>
                                    generate_scalar_imports scalar_data
                                | None => []
                                end) names))
             g,
           None)
    | Some n =>
        snd (ClientGenerator.add_scalar_imports names g) = Some (KeyError n)
    end.
Proof.
  induction names as [|n rest IH]; intros g Hd;
    cbn [find flat_map ClientGenerator.add_scalar_imports].
  - destruct g. unfold ClientGenerator.set_imports, kept_imports. simpl.
    now rewrite app_nil_r.
  - rewrite Hd.
    destruct (ClientGenerator.lookup_scalar n d) as [scalar_data|];
      [|reflexivity].
    rewrite fold_add_import_spec.
    match goal with
    | |- context [ClientGenerator.add_scalar_imports rest ?g1] =>
        specialize (IH g1)
    end.
    assert (Hd1 : ClientGenerator.custom_scalars
                    (ClientGenerator.set_imports
                       (ClientGenerator._imports g
                        ++ kept_imports (ClientGenerator.plugin_manager g)
                             (generate_scalar_imports scalar_data)) g) = d)
      by (destruct g; exact Hd).
    specialize (IH Hd1).
    destruct (find _ rest) as [missing|]; [exact IH|].
    rewrite IH. destruct g. unfold ClientGenerator.set_imports. simpl.
    now rewrite kept_imports_app, app_assoc.
Qed.

Lemma set_imports_fields (l : list ast.ImportFrom) g :
  ClientGenerator.arguments_generator (ClientGenerator.set_imports l g)
  = ClientGenerator.arguments_generator g
  /\ ClientGenerator.custom_scalars (ClientGenerator.set_imports l g)
     = ClientGenerator.custom_scalars g
  /\ ClientGenerator.plugin_manager (ClientGenerator.set_imports l g)
     = ClientGenerator.plugin_manager g
  /\ ClientGenerator._imports (ClientGenerator.set_imports l g) = l.
Proof. destruct g. repeat split. Qed.

(** [generate], step by step: the two imports it asks for first, the loop
    over the custom scalars, then the assembly of the module. *)
Lemma generate_steps g :
  ClientGenerator.generate g
  = match ClientGenerator.add_scalar_imports
            (ArgumentsGenerator.get_used_custom_scalars
               (ClientGenerator.arguments_generator g))
            (ClientGenerator.set_imports
               (ClientGenerator._imports g
                ++ kept_imports (ClientGenerator.plugin_manager g)
                     [codegen.generate_import_from
                        (ArgumentsGenerator.get_used_inputs
                           (ClientGenerator.arguments_generator g))
                        (Some (ClientGenerator.input_types_module_name g)) 1;
                      codegen.generate_import_from
                        (ArgumentsGenerator.get_used_enums
                           (ClientGenerator.arguments_generator g))
                        (Some (ClientGenerator.enums_module_name g)) 1])
               g) with
    | (self, Some err) => (self, inl err)
    | (self, None) =>
        let pm := ClientGenerator.plugin_manager self in
        let n := List.length (ClientGenerator._imports self) in
        let class_def := through_class_hook pm (finished_class self (n + 3)) in
        (ClientGenerator.set_class_def class_def self,
         inr (through_module_hook pm
                (ast.mk_Module
                   (map ast.Import (ClientGenerator._imports self)
                    ++ [ast.Def (through_gql_hook pm (gql_function self (n + 1)));
                        ast.Class class_def]))))
    end.
Proof.
  unfold ClientGenerator.generate.
  remember (ClientGenerator._add_import
              (Some (codegen.generate_import_from
                       (ArgumentsGenerator.get_used_inputs
                          (ClientGenerator.arguments_generator g))
                       (Some (ClientGenerator.input_types_module_name g)) 1)) g)
    as g1 eqn:Hg1.
  rewrite add_import_spec in Hg1.
  remember (ClientGenerator._add_import
              (Some (codegen.generate_import_from
                       (ArgumentsGenerator.get_used_enums
                          (ClientGenerator.arguments_generator g1))
                       (Some (ClientGenerator.enums_module_name g1)) 1)) g1)
    as g2 eqn:Hg2.
  rewrite add_import_spec in Hg2.
  assert (Hg2' : g2 = ClientGenerator.set_imports
               (ClientGenerator._imports g
                ++ kept_imports (ClientGenerator.plugin_manager g)
                     [codegen.generate_import_from
                        (ArgumentsGenerator.get_used_inputs
                           (ClientGenerator.arguments_generator g))
                        (Some (ClientGenerator.input_types_module_name g)) 1;
                      codegen.generate_import_from
                        (ArgumentsGenerator.get_used_enums
                           (ClientGenerator.arguments_generator g))
                        (Some (ClientGenerator.enums_module_name g)) 1])
               g).
  { rewrite Hg2, Hg1. destruct g. unfold ClientGenerator.set_imports.
    cbn [ClientGenerator.name ClientGenerator.enums_module_name
         ClientGenerator.input_types_module_name ClientGenerator.plugin_manager
         ClientGenerator.custom_scalars ClientGenerator.arguments_generator
         ClientGenerator._imports ClientGenerator._class_def
         ClientGenerator._gql_func_name ClientGenerator._operation_str_variable
         ClientGenerator._variables_dict_variable
         ClientGenerator._response_variable ClientGenerator._data_variable
         option_list].
    f_equal.
    match goal with |- _ = _ ++ kept_imports ?pm [?a; ?b] =>
      change [a; b] with ([a] ++ [b]) end.
    now rewrite kept_imports_app, app_assoc. }
  assert (Hag2 : ClientGenerator.arguments_generator g2
                 = ClientGenerator.arguments_generator g)
    by (rewrite Hg2'; apply set_imports_fields).
  rewrite Hag2. rewrite <- Hg2'. clear Hg1 Hg2 Hg2' Hag2 g1.
  destruct (ClientGenerator.add_scalar_imports _ g2) as [g3 [err|]];
    [reflexivity|].
  destruct g3 as [a1 a2 a3 pm3 a5 a6 imps3 class3 a9 a10 a11 a12 a13].
  destruct class3 as [cname bases body lineno].
  destruct pm3; destruct body; reflexivity.
Qed.

(** What [generate] returns and leaves behind when no scalar is missing. *)
Lemma generate_result g :
  missing_scalar g = None ->
  let pm := ClientGenerator.plugin_manager g in
  let imports :=
    ClientGenerator._imports g ++ kept_imports pm (requested_imports g) in
  let class_def :=
    through_class_hook pm (finished_class g (List.length imports + 3)) in
  ClientGenerator.generate g
  = (ClientGenerator.set_class_def class_def
       (ClientGenerator.set_imports imports g),
     inr (through_module_hook pm
            (ast.mk_Module
               (map ast.Import imports
                ++ [ast.Def (through_gql_hook pm
                               (gql_function g (List.length imports + 1)));
                    ast.Class class_def])))).
Proof.
  intros Hmiss pm imports class_def.
  rewrite generate_steps.
  match goal with
  | |- context [ClientGenerator.add_scalar_imports ?names ?g2] =>
      pose proof (add_scalar_imports_spec
                    (ClientGenerator.custom_scalars g) names g2
                    (proj1 (proj2 (set_imports_fields _ g)))) as Hsc
  end.
  unfold missing_scalar in Hmiss. rewrite Hmiss in Hsc.
  match type of Hsc with
  | _ = (ClientGenerator.set_imports ?l ?g2, None) =>
      assert (Hfinal : ClientGenerator.set_imports l g2
                       = ClientGenerator.set_imports imports g)
  end.
  { unfold imports, pm, requested_imports. destruct g.
    unfold ClientGenerator.set_imports.
    cbn [ClientGenerator.name ClientGenerator.enums_module_name
         ClientGenerator.input_types_module_name ClientGenerator.plugin_manager
         ClientGenerator.custom_scalars ClientGenerator.arguments_generator
         ClientGenerator._imports ClientGenerator._class_def
         ClientGenerator._gql_func_name ClientGenerator._operation_str_variable
         ClientGenerator._variables_dict_variable
         ClientGenerator._response_variable ClientGenerator._data_variable].
    f_equal. now rewrite kept_imports_app, app_assoc. }
  rewrite Hfinal in Hsc. rewrite Hsc. cbv beta iota zeta.
  unfold class_def, pm. clearbody imports. clear.
  destruct g. reflexivity.
Qed.

(** X11.  When every used custom scalar has metadata, [generate] returns the
    module whose statements are the imports collected so far followed by the
    imports it asks for itself (used inputs, used enums, custom scalars; each
    through the import hook and kept only when valid), then the helper
    function [gql] at the line after the imports, then the class two lines
    further, with [pass] for a class without statements; the function, the
    class and the module each go through their hook.  The generator keeps
    the extended imports and the finished class. *)
Theorem generate_module_layout g :
  missing_scalar g = None ->
  let pm := ClientGenerator.plugin_manager g in
  let imports :=
    ClientGenerator._imports g ++ kept_imports pm (requested_imports g) in
  let class_def :=
    through_class_hook pm (finished_class g (List.length imports + 3)) in
  snd (ClientGenerator.generate g)
  = inr (through_module_hook pm
           (ast.mk_Module
              (map ast.Import imports
               ++ [ast.Def (through_gql_hook pm
                              (gql_function g (List.length imports + 1)));
                   ast.Class class_def])))
  /\ ClientGenerator._imports (fst (ClientGenerator.generate g)) = imports
  /\ ClientGenerator._class_def (fst (ClientGenerator.generate g)) = class_def
  /\ (pm = None -> ast.cd_body class_def <> []).
Proof.
  intros Hmiss pm imports class_def.
  rewrite (generate_result g Hmiss). cbv zeta. cbn [fst snd].
  split; [reflexivity|].
  split; [destruct g; reflexivity|].
  split; [destruct g; reflexivity|].
  intros Hpm. unfold class_def. rewrite Hpm.
  unfold through_class_hook, finished_class. cbn [ast.cd_body].
  destruct (ast.cd_body (ClientGenerator._class_def g)); discriminate.
Qed.

(** X12.  When a used custom scalar has no metadata, [generate] fails with
    KeyError for the first such scalar and returns no module. *)
Theorem generate_missing_scalar g (n : string) :
  missing_scalar g = Some n ->
  snd (ClientGenerator.generate g) = inl (KeyError n).
Proof.
  intros Hmiss. rewrite generate_steps.
  match goal with
  | |- context [ClientGenerator.add_scalar_imports ?names ?g2] =>
      pose proof (add_scalar_imports_spec
                    (ClientGenerator.custom_scalars g) names g2
                    (proj1 (proj2 (set_imports_fields _ g)))) as Hsc;
      destruct (ClientGenerator.add_scalar_imports names g2) as [g3 o]
  end.
  unfold missing_scalar in Hmiss. rewrite Hmiss in Hsc.
  simpl in Hsc. subst o. reflexivity.
Qed.

(** X13.  [generate] is not repeatable: a second call on the same generator
    asks for its imports once more, so the imports it adds appear twice. *)
Theorem generate_twice_repeats_imports g :
  missing_scalar g = None ->
  ClientGenerator._imports
    (fst (ClientGenerator.generate (fst (ClientGenerator.generate g))))
  = ClientGenerator._imports g
    ++ kept_imports (ClientGenerator.plugin_manager g) (requested_imports g)
    ++ kept_imports (ClientGenerator.plugin_manager g) (requested_imports g).
Proof.
  intros Hmiss.
  rewrite (generate_result g Hmiss). cbv zeta. cbn [fst].
  match goal with
  | |- context [ClientGenerator.generate ?g1] =>
      assert (Hmiss1 : missing_scalar g1 = None)
        by (destruct g; exact Hmiss);
      rewrite (generate_result g1 Hmiss1)
  end.
  cbv zeta. cbn [fst]. destruct g.
  unfold ClientGenerator.set_class_def, ClientGenerator.set_imports,
    requested_imports.
  cbn [ClientGenerator.name ClientGenerator.enums_module_name
       ClientGenerator.input_types_module_name ClientGenerator.plugin_manager
       ClientGenerator.custom_scalars ClientGenerator.arguments_generator
       ClientGenerator._imports ClientGenerator._class_def
       ClientGenerator._gql_func_name ClientGenerator._operation_str_variable
       ClientGenerator._variables_dict_variable
       ClientGenerator._response_variable ClientGenerator._data_variable].
  now rewrite <- app_assoc.
Qed.

Lemma add_call_imports g c :
  ClientGenerator._imports (add_call g c)
  = ClientGenerator._imports g
    ++ kept_imports (ClientGenerator.plugin_manager g) [return_type_import c].
Proof.
  unfold add_call, ClientGenerator.add_method.
  destruct (ArgumentsGenerator.generate
              (ClientGenerator.arguments_generator g)
              (variable_definitions (call_definition c)))
    as [[arguments arguments_dict] ag].
  cbv zeta. rewrite add_import_spec. destruct g. reflexivity.
Qed.

Lemma add_methods_imports (calls : list MethodCall) :
  forall g,
    ClientGenerator._imports (add_methods calls g)
    = ClientGenerator._imports g
      ++ kept_imports (ClientGenerator.plugin_manager g)
           (map return_type_import calls).
Proof.
  induction calls as [|c rest IH]; intros g.
  - unfold kept_imports. simpl. now rewrite app_nil_r.
  - unfold add_methods in *. cbn [fold_left map].
    rewrite IH, add_call_imports.
    pose proof (add_call_settings g c) as Hs.
    apply (f_equal fst) in Hs. simpl in Hs. rewrite Hs.
    change (return_type_import c :: map return_type_import rest)
      with ([return_type_import c] ++ map return_type_import rest).
    now rewrite kept_imports_app, app_assoc.
Qed.

Lemma constructor_imports (cfg : @Config S SC)
    (pm : option PluginManager) :
  ClientGenerator._imports (construct cfg pm)
  = kept_imports pm
      ([ast.mk_ImportFrom (Some "typing") ["Optional"; "List"; "Any"; "Union"] 0]
       ++ option_list (cfg_base_client_import cfg)
       ++ option_list (cfg_unset_import cfg))
  /\ ClientGenerator._class_def (construct cfg pm)
     = ast.mk_ClassDef (cfg_name cfg) [ast.Name (cfg_base_client cfg)] [] None.
Proof.
  unfold construct, ClientGenerator.__init__. cbv zeta.
  rewrite !add_import_spec. generator_fields.
  split; [|reflexivity].
  rewrite !kept_imports_app, app_nil_l, <- app_assoc. reflexivity.
Qed.

Lemma method_for_lineno g c :
  ast.fd_lineno (method_for g c)
  = List.length (ast.cd_body (ClientGenerator._class_def g)) + 1.
Proof.
  unfold method_for.
  destruct (ArgumentsGenerator.generate
              (ClientGenerator.arguments_generator g)
              (variable_definitions (call_definition c)))
    as [[arguments arguments_dict] ag].
  destruct g. destruct (call_async c); reflexivity.
Qed.


(** X15.  Without a plugin manager, the i-th [add_method] call of a run
    leaves at position i of the class body the method bearing the call's
    name, and the line number [add_method] gives it is i + 1. *)
Theorem method_line_numbers (cfg : @Config S SC) (calls : list MethodCall)
    (i : nat) c :
  nth_error calls i = Some c ->
  exists f,
    nth_error
      (ast.cd_body (ClientGenerator._class_def
                      (add_methods calls (construct cfg None)))) i
    = Some (ast.Def f)
    /\ ast.fd_name f = call_name c
    /\ ast.fd_is_async f = call_async c
    /\ ast.fd_lineno f = i + 1.
Proof.
  intros Hnth.
  exists (method_for (add_methods (firstn i calls) (construct cfg None)) c).
  assert (Hbody0 : ast.cd_body (ClientGenerator._class_def (construct cfg None))
                   = []).
  { now rewrite (proj2 (constructor_imports cfg None)). }
  split; [|split; [|split]].
  - rewrite add_methods_body, Hbody0. simpl.
    rewrite (appended_methods_nth calls (construct cfg None) i c Hnth).
    pose proof (construct_settings cfg None) as Hs.
    apply (f_equal fst) in Hs. simpl in Hs. rewrite Hs. reflexivity.
  - apply method_for_name.
  - unfold method_for.
    destruct (ArgumentsGenerator.generate _ _) as [[arguments arguments_dict] ag].
    destruct (call_async c); reflexivity.
  - rewrite method_for_lineno, add_methods_body, Hbody0. simpl.
    rewrite appended_methods_length, length_firstn.
    assert (i < List.length calls) by (apply nth_error_Some; congruence).
    lia.
Qed.

Lemma imports_valid_add_methods (cfg : @Config S SC)
    (pm : option PluginManager) (calls : list MethodCall) :
  Forall (fun i => ClientGenerator.import_is_kept i = true)
         (ClientGenerator._imports (add_methods calls (construct cfg pm))).
Proof.
  rewrite add_methods_imports, (proj1 (constructor_imports cfg pm)).
  apply Forall_app. split; apply kept_imports_valid.
Qed.

Lemma add_scalar_imports_valid (names : list string) :
  forall g,
    Forall (fun i => ClientGenerator.import_is_kept i = true)
           (ClientGenerator._imports g) ->
    Forall (fun i => ClientGenerator.import_is_kept i = true)
           (ClientGenerator._imports
              (fst (ClientGenerator.add_scalar_imports names g))).
Proof.
  induction names as [|n rest IH]; intros g Hg;
    cbn [ClientGenerator.add_scalar_imports]; auto.
  destruct (ClientGenerator.lookup_scalar n (ClientGenerator.custom_scalars g));
    auto.
  apply IH. rewrite fold_add_import_spec. destruct g. simpl in *.
  apply Forall_app. split; [exact Hg|apply kept_imports_valid].
Qed.

(** X16.  Whatever the plugin hooks do and whether [generate] succeeds or
    fails, the generator never holds an import that names nothing to import
    or no module to import from: after the constructor, any [add_method]
    calls and [generate], every import it has collected is a valid one. *)
Theorem collected_imports_are_valid (cfg : @Config S SC)
    (pm : option PluginManager) (calls : list MethodCall) :
  Forall (fun i => ClientGenerator.import_is_kept i = true)
         (ClientGenerator._imports
            (fst (ClientGenerator.generate
                    (add_methods calls (construct cfg pm))))).
Proof.
  pose proof (imports_valid_add_methods cfg pm calls) as Hg.
  set (g := add_methods calls (construct cfg pm)) in *.
  rewrite generate_steps.
  match goal with
  | |- context [ClientGenerator.add_scalar_imports ?names ?g2] =>
      pose proof (add_scalar_imports_valid names g2) as Hsc;
      destruct (ClientGenerator.add_scalar_imports names g2) as [g3 o]
  end.
  assert (Hg3 : Forall (fun i => ClientGenerator.import_is_kept i = true)
                       (ClientGenerator._imports g3)).
  { apply Hsc. rewrite (proj2 (proj2 (proj2 (set_imports_fields _ g)))).
    apply Forall_app. split; [exact Hg|apply kept_imports_valid]. }
  destruct o as [err|]; cbn [fst]; [exact Hg3|].
  cbv zeta. destruct g3. exact Hg3.
Qed.

End GeneratorRun.

Lemma generate_module_layout_witness :
  let g := add_methods sample_calls (construct sample_config None) in
  let imports :=
    ClientGenerator._imports g ++ kept_imports None (requested_imports g) in
  snd (ClientGenerator.generate g)
  = inr (ast.mk_Module
           (map ast.Import imports
            ++ [ast.Def (gql_function g (List.length imports + 1));
                ast.Class (finished_class g (List.length imports + 3))])).
Proof.
  intros g imports.
  assert (Hmiss : missing_scalar g = None) by (vm_compute; reflexivity).
  rewrite (proj1 (generate_module_layout g Hmiss)).
  vm_compute. reflexivity.
Defined.

Lemma generate_missing_scalar_witness :
  snd (ClientGenerator.generate
         (add_methods scalar_calls (construct scalar_config None)))
  = inl (KeyError "DateTime").
Proof.
  apply (generate_missing_scalar
           (add_methods scalar_calls (construct scalar_config None))
           "DateTime").
  vm_compute. reflexivity.
Defined.

Lemma generate_twice_repeats_imports_witness :
  ClientGenerator._imports
    (fst (ClientGenerator.generate
            (fst (ClientGenerator.generate
                    (add_methods sample_calls (construct sample_config None))))))
  = ClientGenerator._imports
      (add_methods sample_calls (construct sample_config None))
    ++ [ast.mk_ImportFrom (Some "input_types") ["UserInput"] 1;
        ast.mk_ImportFrom (Some "enums") ["Role"] 1]
    ++ [ast.mk_ImportFrom (Some "input_types") ["UserInput"] 1;
        ast.mk_ImportFrom (Some "enums") ["Role"] 1].
Proof.
  rewrite (generate_twice_repeats_imports
             (add_methods sample_calls (construct sample_config None)))
    by (vm_compute; reflexivity).
  vm_compute. reflexivity.
Defined.


Lemma method_line_numbers_witness :
  exists f,
    nth_error
      (ast.cd_body (ClientGenerator._class_def
                      (add_methods sample_calls (construct sample_config None)))) 1
    = Some (ast.Def f)
    /\ ast.fd_name f = call_name second_call
    /\ ast.fd_is_async f = call_async second_call
    /\ ast.fd_lineno f = 1 + 1.
Proof.
  apply (method_line_numbers sample_config sample_calls 1 second_call).
  reflexivity.
Defined.

(** ** The operation text in the generated method *)

Lemma string_append_nil_r (s : string) : (s ++ "")%string = s.
Proof. induction s as [|c rest IH]; simpl; congruence. Qed.

Lemma string_append_assoc (a b c : string) :
  ((a ++ b) ++ c)%string = (a ++ b ++ c)%string.
Proof. induction a as [|x rest IH]; simpl; congruence. Qed.

Lemma splitlines_from_step (line : string) (c : ascii) (rest : string) :
  other_boundary_at_head (String c rest) = false ->
  splitlines_from line (String c rest)
  = if code_is 10 c then line :: splitlines_from "" rest
    else splitlines_from (line ++ String c "") rest.
Proof.
  intros Hc. cbn [other_boundary_at_head] in Hc.
  apply orb_false_iff in Hc. destruct Hc as [Hc Hwide].
  repeat (apply orb_false_iff in Hc; destruct Hc as [Hc ?]).
  cbn [splitlines_from]. unfold is_line_boundary.
  repeat match goal with H : code_is _ c = false |- _ => rewrite H; clear H end.
  rewrite !orb_false_r.
  destruct (code_is 10 c); [reflexivity|].
  destruct rest as [|c2 rest2]; [reflexivity|].
  apply orb_false_iff in Hwide. destruct Hwide as [Hnel Hsep].
  rewrite Hnel.
  destruct rest2 as [|c3 rest3]; [reflexivity|].
  rewrite Hsep. reflexivity.
Qed.

Lemma ends_with_newline_cons (c : ascii) (s : string) :
  s <> EmptyString -> ends_with_newline (String c s) = ends_with_newline s.
Proof. destruct s; [congruence|reflexivity]. Qed.

Lemma constants_of_lines (s : string) :
  only_lf_breaks s = true ->
  forall line,
    concat_strings
      (map (fun l => (l ++ String "010"%char "")%string)
           (splitlines_from line s))
    = match s with
      | EmptyString =>
          match line with
          | EmptyString => ""
          | _ => (line ++ String "010"%char "")%string
          end
      | _ => (line ++ ensure_newline s)%string
      end.
Proof.
  induction s as [|c rest IH]; intros Hs line.
  - destruct line; simpl; [reflexivity|].
    now rewrite string_append_nil_r.
  - cbn [only_lf_breaks] in Hs. apply andb_true_iff in Hs.
    destruct Hs as [Hc Hrest]. apply negb_true_iff in Hc.
    rewrite (splitlines_from_step line c rest Hc).
    specialize (IH Hrest).
    destruct (code_is 10 c) eqn:Hlf.
    + (* a line ends here *)
      assert (Hc10 : c = "010"%char).
      { unfold code_is in Hlf. apply Nat.eqb_eq in Hlf.
        rewrite <- (ascii_nat_embedding c), Hlf. reflexivity. }
      subst c. cbn [map concat_strings]. rewrite (IH "").
      rewrite string_append_assoc. f_equal.
      destruct rest as [|c2 rest2]; [reflexivity|].
      unfold ensure_newline at 2.
      rewrite ends_with_newline_cons by discriminate.
      unfold ensure_newline. cbn [append].
      destruct (ends_with_newline (String c2 rest2)); reflexivity.
    + rewrite (IH (line ++ String c "")%string).
      destruct rest as [|c2 rest2].
      * destruct (line ++ String c "")%string eqn:Hl.
        -- destruct line; discriminate.
        -- rewrite <- Hl. unfold ensure_newline. cbn [ends_with_newline].
           rewrite Hlf. now rewrite string_append_assoc.
      * rewrite string_append_assoc. f_equal.
        unfold ensure_newline at 2.
        rewrite ends_with_newline_cons by discriminate.
        unfold ensure_newline. cbn [append].
        destruct (ends_with_newline (String c2 rest2)); reflexivity.
Qed.

(** X17.  The first statement of a generated method hands [gql] one string
    constant per line of the operation text, and for a text whose only line
    boundary is LF these constants, read one after the other, spell the
    operation text again, with a final newline added when the text does not
    end in one. *)
Theorem operation_text_round_trip {S : Type} {SC : Scalars}
    (self : @ClientGenerator.t S SC) (operation_str : string) (lineno : nat) :
  only_lf_breaks operation_str = true ->
  ClientGenerator._generate_operation_str_assign self operation_str lineno
  = ast.Assign
      [ast.Name (ClientGenerator._operation_str_variable self)]
      (ast.Call (ast.Name (ClientGenerator._gql_func_name self))
                [ast.Nodes (map ast.Constant
                                (operation_constants operation_str))]
                [])
      lineno
  /\ concat_strings (operation_constants operation_str)
     = ensure_newline operation_str.
Proof.
  intros Hs. split.
  - unfold ClientGenerator._generate_operation_str_assign, operation_constants,
      codegen.generate_assign, codegen.generate_call, codegen.generate_name,
      codegen.generate_constant.
    now rewrite map_map.
  - unfold operation_constants, splitlines.
    rewrite (constants_of_lines operation_str Hs "").
    destruct operation_str; reflexivity.
Qed.

Lemma operation_text_round_trip_witness :
  ClientGenerator._generate_operation_str_assign sample_generator priced_query 1
  = ast.Assign
      [ast.Name (ClientGenerator._operation_str_variable sample_generator)]
      (ast.Call (ast.Name (ClientGenerator._gql_func_name sample_generator))
                [ast.Nodes (map ast.Constant (operation_constants priced_query))]
                [])
      1
  /\ concat_strings (operation_constants priced_query)
     = ensure_newline priced_query.
Proof.
  apply (operation_text_round_trip sample_generator priced_query 1).
  reflexivity.
Defined.

(** * Further properties of normalization *)

(** X18.  Conversion reaches model instances through lists and not through
    dictionaries: what [_convert_value] returns is never a model and holds no
    model under lists only, a list keeps its length, and a dictionary is
    returned as it is, models inside it included. *)
Theorem conversion_reaches_models_through_lists (value : Value) :
  model_through_lists (BaseClient._convert_value value) = false
  /\ (forall items, value = VList items ->
        exists items', BaseClient._convert_value value = VList items'
                       /\ List.length items' = List.length items)
  /\ (forall entries, value = VDict entries ->
        BaseClient._convert_value value = VDict entries)
  /\ (forall dump, value = VModel dump ->
        BaseClient._convert_value value = VDict dump).
Proof.
  split; [|split; [|split]].
  - induction value using Value_nested_ind; try reflexivity.
    simpl. induction H as [|x rest Hx Hrest IH]; simpl; auto.
    now rewrite Hx, IH.
  - intros items Hv. subst value. simpl. eexists. split; [reflexivity|].
    apply length_map.
  - intros entries Hv. now subst value.
  - intros dump Hv. now subst value.
Qed.

(** X19.  Normalization keeps the variables that are not UNSET, under their
    own keys and in their own order, and adds none. *)
Theorem normalization_keeps_key_order (env : Env) (variables : Dict) :
  NoDup (dict_keys variables) ->
  exists processed,
    fst (BaseClient._process_variables env (Some variables)) = VDict processed
    /\ dict_keys processed = dict_keys (filter is_set variables)
    /\ NoDup (dict_keys processed).
Proof.
  intros Hnd.
  pose proof (convert_dict_spec variables Hnd) as Hconv.
  assert (Hkeys : dict_keys
                    (BaseClient._convert_dict_to_json_serializable variables)
                  = dict_keys (filter is_set variables)).
  { now rewrite Hconv, dict_keys_map_values. }
  assert (Hnd' : NoDup (dict_keys
                   (BaseClient._convert_dict_to_json_serializable variables))).
  { rewrite Hkeys. now apply dict_keys_filter_NoDup. }
  exists (map (fun kv => (fst kv, nulled env (snd kv)))
              (BaseClient._convert_dict_to_json_serializable variables)).
  split; [|split].
  - rewrite process_variables_spec. simpl fst. now apply nulled_dict_spec.
  - now rewrite dict_keys_map_values.
  - now rewrite dict_keys_map_values.
Qed.

Lemma normalization_keeps_key_order_witness :
  exists processed,
    fst (BaseClient._process_variables sample_env
           (Some [("b", VInt 2); ("skip", VUnset); ("a", VFile 5)]))
    = VDict processed
    /\ dict_keys processed
       = dict_keys (filter is_set
                      [("b", VInt 2); ("skip", VUnset); ("a", VFile 5)])
    /\ NoDup (dict_keys processed).
Proof.
  apply (normalization_keeps_key_order sample_env
           [("b", VInt 2); ("skip", VUnset); ("a", VFile 5)]).
  unfold dict_keys. simpl. repeat constructor; simpl; intuition discriminate.
Defined.

Lemma file_paths_rooted (env : Env) (obj : Value) :
  forall root h p,
    In (h, p) (file_paths env root obj) ->
    exists suffix, p = (root ++ suffix)%string.
Proof.
  induction obj using Value_nested_ind; intros root h0 p Hin;
    try (simpl in Hin; contradiction).
  - (* list *)
    simpl in Hin. revert Hin. generalize 0.
    induction H as [|x rest Hx Hrest IH]; intros index Hin; [contradiction|].
    apply in_app_or in Hin. destruct Hin as [Hin|Hin].
    + destruct (Hx _ _ _ Hin) as [suffix Hs].
      exists ("." ++ str_of_nat index ++ suffix)%string.
      now rewrite Hs, !string_append_assoc.
    + exact (IH _ Hin).
  - (* dict *)
    simpl in Hin.
    induction H as [|[k x] rest Hx Hrest IH]; [contradiction|].
    apply in_app_or in Hin. destruct Hin as [Hin|Hin].
    + simpl in Hx. destruct (Hx _ _ _ Hin) as [suffix Hs].
      exists ("." ++ k ++ suffix)%string.
      now rewrite Hs, !string_append_assoc.
    + exact (IH Hin).
  - (* file *)
    simpl in Hin. destruct (BaseClient.is_binary env h); [|contradiction].
    destruct Hin as [Heq|[]]. inversion Heq. subst.
    exists "". now rewrite string_append_nil_r.
Qed.

(** X20.  The File Reference Map accounts for every binding of a binary file
    and for nothing else: under each handle it lists exactly the paths at
    which the handle is bound in the serialized variables, in the order the
    walk meets them, and every listed path starts with [variables]. *)
Theorem file_map_accounts_for_bindings (env : Env) (variables : Dict)
    (h : Handle) :
  let occurrences :=
    file_paths env "variables"
      (VDict (BaseClient._convert_dict_to_json_serializable variables)) in
  let m := snd (BaseClient._process_variables env (Some variables)) in
  paths_of h m = paths_where h occurrences
  /\ (In h (map fst m) <-> In h (map fst occurrences))
  /\ (forall p, In p (paths_of h m) ->
                exists suffix, p = ("variables" ++ suffix)%string).
Proof.
  intros occurrences m.
  assert (Hm : m = record_all occurrences []).
  { unfold m. rewrite process_variables_spec. reflexivity. }
  assert (Hpaths : paths_of h m = paths_where h occurrences).
  { rewrite Hm, paths_of_record_all. reflexivity. }
  split; [exact Hpaths|]. split.
  - rewrite Hm, keys_record_all. simpl. split.
    + generalize (@nil Handle) (@in_nil Handle h).
      induction (map fst occurrences) as [|x rest IH]; intros seen Hseen Hin.
      * simpl in Hin. contradiction.
      * simpl in Hin. destruct (Nat.eq_dec x h) as [Heq|Hne]; [now left|].
        right. apply (IH (see seen x)); auto.
        unfold see. destruct (existsb (Nat.eqb x) seen); auto.
        intros Hx. apply in_app_or in Hx. destruct Hx as [Hx|[Hx|[]]]; auto.
    + apply fold_see_In.
  - intros p Hp. rewrite Hpaths in Hp. unfold paths_where in Hp.
    apply in_map_iff in Hp. destruct Hp as [[h' p'] [Heq Hin]].
    simpl in Heq. subst p'. apply filter_In in Hin. destruct Hin as [Hin _].
    exact (file_paths_rooted env _ _ _ _ Hin).
Qed.
